(** * xr_loopback_set: rollback synthesis for IOS-XR loopback descriptions

    A shallow embedding of [scripts/xr_loopback_set.py] and the properties of
    its identifier normalizer, state prober, emptiness classifier, rollback
    synthesizer and command-file codec.

    Conventions of the embedding.
    - A Python [str] is a [string]; a character is a code point below 256
      (the Latin-1 range of Unicode), and the character classes of
      [str.strip], [str.isdigit], [str.lower] and [str.splitlines] are the
      ones Python uses on that range.
    - A Python exception is a value of [exn]; a function that may raise
      returns a [result].
    - The device session [conn] is the function that answers a read-only
      query; the file system is a finite map from paths to file contents. *)

From Stdlib Require Import Ascii String DecimalString DecimalFacts DecimalN.
From stdpp Require Import gmap strings list fin_maps.

(** ** Python strings *)

Module Py.

Definition LF : ascii := "010"%char.
Definition CR : ascii := "013"%char.

(** [c.isspace()] for a code point below 256: TAB, LF, VT, FF, CR,
    FS, GS, RS, US, SPACE, NEL and NBSP. *)
Definition isspace (c : ascii) : bool :=
  let n := N_of_ascii c in
  ((9 <=? n) && (n <=? 13) || (28 <=? n) && (n <=? 32)
   || (n =? 133) || (n =? 160))%N.

(** A line boundary of [str.splitlines]: LF, VT, FF, CR, FS, GS, RS, NEL. *)
Definition is_linebreak (c : ascii) : bool :=
  let n := N_of_ascii c in
  ((10 <=? n) && (n <=? 13) || (28 <=? n) && (n <=? 30) || (n =? 133))%N.

(** [c.isdigit()] for one character: the decimal digits and the
    superscripts two, three and one. *)
Definition isdigit_char (c : ascii) : bool :=
  let n := N_of_ascii c in
  ((48 <=? n) && (n <=? 57) || (n =? 178) || (n =? 179) || (n =? 185))%N.

(** The characters [int] accepts as digits, on this range: 0 to 9. *)
Definition isdecimal_char (c : ascii) : bool :=
  let n := N_of_ascii c in ((48 <=? n) && (n <=? 57))%N.

(** [c.lower()]: A-Z, and the Latin-1 capitals 0xC0-0xDE except 0xD7. *)
Definition lower_char (c : ascii) : ascii :=
  let n := N_of_ascii c in
  if ((65 <=? n) && (n <=? 90)
      || (192 <=? n) && (n <=? 222) && negb (n =? 215))%N
  then ascii_of_N (n + 32) else c.

Fixpoint all_chars (p : ascii -> bool) (s : string) : bool :=
  match s with
  | EmptyString => true
  | String c r => p c && all_chars p r
  end.

Definition is_empty (s : string) : bool :=
  match s with EmptyString => true | String _ _ => false end.

(** [s.isdigit()]: at least one character, and all of them digits. *)
Definition isdigit (s : string) : bool :=
  negb (is_empty s) && all_chars isdigit_char s.

Fixpoint lower (s : string) : string :=
  match s with
  | EmptyString => EmptyString
  | String c r => String (lower_char c) (lower r)
  end.

Fixpoint lstrip (s : string) : string :=
  match s with
  | EmptyString => EmptyString
  | String c r => if isspace c then lstrip r else s
  end.

Fixpoint rstrip (s : string) : string :=
  match s with
  | EmptyString => EmptyString
  | String c r =>
      let r' := rstrip r in
      if is_empty r' && isspace c then EmptyString else String c r'
  end.

Definition strip (s : string) : string := lstrip (rstrip s).

(** [s.rstrip("\n")]: only trailing line feeds go. *)
Fixpoint rstrip_lf (s : string) : string :=
  match s with
  | EmptyString => EmptyString
  | String c r =>
      let r' := rstrip_lf r in
      if is_empty r' && Ascii.eqb c LF then EmptyString else String c r'
  end.

Definition startswith (s p : string) : bool := String.prefix p s.

(** The slice [s[n:]]. *)
Fixpoint slice_from (n : nat) (s : string) : string :=
  match n, s with
  | O, _ => s
  | S _, EmptyString => EmptyString
  | S n', String _ r => slice_from n' r
  end.

(** [sep.join(l)]. *)
Definition join (sep : string) (l : list string) : string :=
  String.concat sep l.

(** [s.splitlines()]: the lines of [s] without their boundaries; CR LF is
    one boundary, and a final boundary opens no further line. *)
Fixpoint splitlines (s : string) : list string :=
  match s with
  | EmptyString => []
  | String c r =>
      if is_linebreak c then
        EmptyString ::
          match r with
          | String c' r' =>
              if Ascii.eqb c CR && Ascii.eqb c' LF then splitlines r'
              else splitlines r
          | EmptyString => splitlines r
          end
      else
        match splitlines r with
        | [] => [String c EmptyString]
        | l :: ls => String c l :: ls
        end
  end.

(** Truth value of a string: the empty string alone is false. *)
Definition truthy (s : string) : bool := negb (is_empty s).

(** [str(n)] for a non-negative integer. *)
Definition str_of_int (n : N) : string :=
  NilZero.string_of_uint (N.to_uint n).

End Py.

(** ** Exceptions *)

Inductive exn : Type :=
| ValueError
| KeyError
| FileNotFoundError.

Inductive result (A : Type) : Type :=
| Ok (a : A)
| Raise (e : exn).

Arguments Ok {A} a.
Arguments Raise {A} e.

Global Instance result_ret : MRet result := @Ok.
Global Instance result_bind : MBind result := fun A B f m =>
  match m with
  | Ok a => f a
  | Raise e => Raise e
  end.

(** [int(s)] on the strings that reach it in this program, which all
    satisfy [s.isdigit()]: the value of a non-empty run of decimal digits,
    and [ValueError] on a digit character that is not decimal. *)
Definition py_int (s : string) : result N :=
  if Py.is_empty s then Raise ValueError
  else match NilZero.uint_of_string s with
       | Some d => Ok (N.of_uint d)
       | None => Raise ValueError
       end.

(** ** Helpers *)

Definition normalize_loopback (name_or_id : string) : result string :=
  let n := Py.strip name_or_id in
  if Py.startswith (Py.lower n) "loopback" then
    let suffix := Py.slice_from (String.length "loopback") n in
    if negb (Py.isdigit suffix) then Raise ValueError
    else i ← py_int suffix; Ok ("Loopback" +:+ Py.str_of_int i)
  else
    if negb (Py.isdigit n) then Raise ValueError
    else i ← py_int n; Ok ("Loopback" +:+ Py.str_of_int i).

Definition build_commands_bulk (pairs : list (string * string)) : list string :=
  fold_left
    (fun cmds '(lb, desc) =>
       cmds ++ ["interface " +:+ lb; "description " +:+ desc])
    pairs [].

(** ** Per-interface probes *)

(** The dictionary [get_interface_state] returns. *)
Record state : Type := State {
  exists_ : bool;
  description : option string;
  lines : list string;
}.

(** One turn of the loop over [lines[1:]]: the pair is the current
    [(description, sub_lines)]. *)
Definition probe_step (acc : option string * list string) (ln : string)
  : option string * list string :=
  let '(description, sub_lines) := acc in
  let raw := Py.lstrip ln in
  let sub_lines := sub_lines ++ [raw] in
  if Py.startswith raw "description " then
    (Some (Py.strip (Py.slice_from (String.length "description ") raw)),
     sub_lines)
  else (description, sub_lines).

Definition get_interface_state (conn : string -> string) (loopback : string)
  : state :=
  let text := conn ("show running-config interface " +:+ loopback) in
  let lines :=
    Py.rstrip <$>
      filter (fun ln => Py.truthy (Py.strip ln) = true) (Py.splitlines text) in
  match lines with
  | l0 :: rest =>
      if Py.startswith l0 "interface " then
        let '(description, sub_lines) := fold_left probe_step rest (None, []) in
        State true description sub_lines
      else State false None []
  | [] => State false None []
  end.

Fixpoint is_empty_loopback (sub_lines : list string) : bool :=
  match sub_lines with
  | [] => true
  | ln :: rest =>
      if negb (Py.truthy ln) || Py.startswith ln "description "
      then is_empty_loopback rest
      else false
  end.

(** ** Rollback generation *)

(** The loop of [generate_rollback_for_pairs], [cmds] being the list built
    so far; [before_states[lb]] raises [KeyError] on a missing key. On a
    Boolean [bool(...)] changes nothing, and on a list [... or []] changes
    nothing; [if desc:] holds for a string that is present and not empty. *)
Fixpoint rollback_loop (before_states : gmap string state)
    (delete_empty_loopbacks : bool) (cmds : list string)
    (target_pairs : list (string * string)) : result (list string) :=
  match target_pairs with
  | [] => Ok cmds
  | (lb, _new_desc) :: rest =>
      match before_states !! lb with
      | None => Raise KeyError
      | Some st =>
          let exists_ := exists_ st in
          let desc := description st in
          let lines := lines st in
          if negb exists_ then
            rollback_loop before_states delete_empty_loopbacks
              (cmds ++ ["no interface " +:+ lb]) rest
          else if delete_empty_loopbacks && is_empty_loopback lines then
            rollback_loop before_states delete_empty_loopbacks
              (cmds ++ ["no interface " +:+ lb]) rest
          else
            let cmds := cmds ++ ["interface " +:+ lb] in
            match desc with
            | Some d =>
                if Py.truthy d then
                  rollback_loop before_states delete_empty_loopbacks
                    (cmds ++ ["description " +:+ d]) rest
                else
                  rollback_loop before_states delete_empty_loopbacks
                    (cmds ++ ["no description"]) rest
            | None =>
                rollback_loop before_states delete_empty_loopbacks
                  (cmds ++ ["no description"]) rest
            end
      end
  end.

Definition generate_rollback_for_pairs (before_states : gmap string state)
    (target_pairs : list (string * string)) (delete_empty_loopbacks : bool)
  : result (list string) :=
  rollback_loop before_states delete_empty_loopbacks [] target_pairs.

(** The loop of [main] that fills [before_states], one probe per target. *)
Definition probe_targets (conn : string -> string)
    (target_pairs : list (string * string)) : gmap string state :=
  fold_left
    (fun before_states '(lb, _desc) =>
       <[lb := get_interface_state conn lb]> before_states)
    target_pairs ∅.

(** ** File I/O for rollback commands *)

(** The line terminator the commands are joined with. *)
Definition nl : string := String Py.LF "".

(** Reading a file opened in text mode with the default [newline=None]:
    CR LF and a lone CR arrive as LF. *)
Fixpoint universal_newlines (s : string) : string :=
  match s with
  | EmptyString => EmptyString
  | String c r =>
      if Ascii.eqb c Py.CR then
        String Py.LF
          match r with
          | String c' r' =>
              if Ascii.eqb c' Py.LF then universal_newlines r'
              else universal_newlines r
          | EmptyString => universal_newlines r
          end
      else String c (universal_newlines r)
  end.

(** Iterating over a text file: each line with its final LF, the last one
    possibly without. *)
Fixpoint file_lines (s : string) : list string :=
  match s with
  | EmptyString => []
  | String c r =>
      if Ascii.eqb c Py.LF then String c EmptyString :: file_lines r
      else match file_lines r with
           | [] => [String c EmptyString]
           | l :: ls => String c l :: ls
           end
  end.

(** [open(path, "w")] followed by [f.write(text)], where the line separator
    of the platform is LF: the file holds [text]. *)
Definition _save_commands_to_file (cmds : list string) (path : string)
    (fs : gmap string string) : result (gmap string string) :=
  Ok (<[path := Py.join nl cmds +:+ nl]> fs).

Definition _read_commands_from_file (path : string) (fs : gmap string string)
  : result (list string) :=
  match fs !! path with
  | None => Raise FileNotFoundError
  | Some content =>
      Ok (Py.rstrip_lf <$>
            filter (fun ln => Py.truthy (Py.strip ln) = true)
                   (file_lines (universal_newlines content)))
  end.

(** ** Properties named by the specification *)

(** A blank line: nothing but whitespace. *)
Definition is_blank (ln : string) : bool := Py.is_empty (Py.strip ln).

(** A description line: it begins with the description marker. *)
Definition is_description_line (ln : string) : bool :=
  Py.startswith ln "description ".

(** The attribute value a description line carries. *)
Definition description_value (ln : string) : string :=
  Py.strip (Py.slice_from (String.length "description ") ln).

(** The value of the first, and of the last, description line among
    sub-lines. *)
Definition first_description (sub_lines : list string) : option string :=
  description_value <$>
    head (filter (fun ln => is_description_line ln = true) sub_lines).

Definition last_description (sub_lines : list string) : option string :=
  description_value <$>
    last (filter (fun ln => is_description_line ln = true) sub_lines).

(** A non-negative integer in decimal: one digit 0-9 or more. *)
Definition is_decimal (s : string) : bool :=
  negb (Py.is_empty s) && Py.all_chars Py.isdecimal_char s.

(** The kind prefix, in any case, at the start of an identifier. *)
Definition has_kind_prefix (n : string) : bool :=
  String.eqb (Py.lower (String.substring 0 8 n)) "loopback".

(** A valid identifier, once trimmed: the kind prefix followed by a
    non-negative integer, or a bare non-negative integer. *)
Definition valid_identifier (n : string) : bool :=
  has_kind_prefix n && is_decimal (Py.slice_from 8 n) || is_decimal n.

(** [k] zeros of padding. *)
Fixpoint zeros (k : nat) : string :=
  match k with
  | O => EmptyString
  | S k' => String "0" (zeros k')
  end.

(** A run of digits without its leading zeros, a lone "0" being kept. *)
Fixpoint drop_zeros (s : string) : string :=
  match s with
  | String c r => if Ascii.eqb c "0" then drop_zeros r else s
  | EmptyString => EmptyString
  end.

Definition canonical_digits (s : string) : string :=
  match drop_zeros s with
  | EmptyString => "0"
  | String c r => String c r
  end.

(** The rollback block of one change as the three-way rule words it: a
    present attribute value is set again, an absent one is cleared. *)
Definition rule_block_present (st : state) (lb : string)
    (delete_trivial : bool) : list string :=
  if negb (exists_ st) then ["no interface " +:+ lb]
  else if delete_trivial && is_empty_loopback (lines st)
  then ["no interface " +:+ lb]
  else
    ["interface " +:+ lb;
     match description st with
     | Some old => "description " +:+ old
     | None => "no description"
     end].

(** The same rule where only a present and non-empty attribute value is
    set again. *)
Definition rule_block (st : state) (lb : string)
    (delete_trivial : bool) : list string :=
  if negb (exists_ st) then ["no interface " +:+ lb]
  else if delete_trivial && is_empty_loopback (lines st)
  then ["no interface " +:+ lb]
  else
    ["interface " +:+ lb;
     match description st with
     | Some (String c r) => "description " +:+ String c r
     | Some EmptyString | None => "no description"
     end].

(** A command that fits on one line of the file: no LF and no CR. *)
Definition single_line (cmd : string) : bool :=
  Py.all_chars (fun c => negb (Ascii.eqb c Py.LF || Ascii.eqb c Py.CR)) cmd.

(** A command with an embedded line terminator. *)
Definition has_line_terminator (cmd : string) : bool :=
  negb (Py.all_chars (fun c => negb (Ascii.eqb c Py.LF)) cmd).

(** Saving commands to [path], then reading them back. *)
Definition save_then_read (cmds : list string) (path : string)
    (fs : gmap string string) : result (list string) :=
  fs' ← _save_commands_to_file cmds path fs;
  _read_commands_from_file path fs'.

(** What is left of a valid identifier once the kind prefix is gone. *)
Definition digits_of (n : string) : string :=
  if has_kind_prefix n then Py.slice_from 8 n else n.

(** The text of a file that holds [cmds], one per line. *)
Definition text_of (cmds : list string) : string :=
  fold_right (fun c acc => c +:+ String Py.LF acc) "" cmds.

(** What [_read_commands_from_file] makes of the content of a file. *)
Definition decode_text (content : string) : list string :=
  Py.rstrip_lf <$>
    filter (fun ln => Py.truthy (Py.strip ln) = true)
           (file_lines (universal_newlines content)).

(** A command the codec keeps: not blank, and on one line. *)
Definition kept (cmd : string) : Prop :=
  is_blank cmd = false /\ single_line cmd = true.

(** The device answer used in the examples: a stanza with two description
    lines. *)
Definition two_descriptions (_ : string) : string :=
  "interface Loopback1
 description A
 description B
".

(** The snapshots used in the examples. *)
Definition empty_description_states : gmap string state :=
  {[ "Loopback1" := State true (Some "") ["mtu 9000"] ]}.

Definition example_items : list (string * state) :=
  [ ("Loopback1", State false None []);
    ("Loopback2", State true (Some "old") ["description old"]);
    ("Loopback3", State true None ["mtu 9000"]) ].

Definition example_batch : list (string * string) :=
  [ ("Loopback3", "c"); ("Loopback1", "a"); ("Loopback2", "b") ].

(** ** The rows of the CSV file *)

(** A row as [csv.DictReader] yields it for a file whose header names the
    columns [loopback] and [description], in this order: a row that stops
    after its first field leaves [description] at [None]. *)
Record csv_row : Type := CsvRow {
  row_loopback : string;
  row_description : option string;
}.

(** [row["description"] or ""]. *)
Definition or_empty (o : option string) : string :=
  match o with
  | Some (String c r) => String c r
  | Some EmptyString | None => EmptyString
  end.

(** The loop of [parse_csv_pairs] over the rows, [pairs] being the list
    built so far. *)
Fixpoint parse_rows_loop (pairs : list (string * string))
    (rows : list csv_row) : result (list (string * string)) :=
  match rows with
  | [] => Ok pairs
  | row :: rest =>
      lb ← normalize_loopback (row_loopback row);
      let desc := Py.strip (or_empty (row_description row)) in
      if negb (Py.truthy desc) then Raise ValueError
      else parse_rows_loop (pairs ++ [(lb, desc)]) rest
  end.

(** [parse_csv_pairs], from the rows the reader yields for the file. *)
Definition parse_csv_pairs (rows : list csv_row)
  : result (list (string * string)) :=
  pairs ← parse_rows_loop [] rows;
  match pairs with
  | [] => Raise ValueError
  | _ :: _ => Ok pairs
  end.

(** A row [parse_csv_pairs] accepts. *)
Definition row_ok (row : csv_row) : bool :=
  valid_identifier (Py.strip (row_loopback row))
  && negb (is_blank (or_empty (row_description row))).

(** The two commands of one change. *)
Definition change_commands (c : string * string) : list string :=
  ["interface " +:+ c.1; "description " +:+ c.2].

(** The integer of a valid identifier, as [int] reads it. *)
Definition identifier_number (raw : string) : result N :=
  py_int (digits_of (Py.strip raw)).

(** The change a row asks for, when the row is accepted. *)
Definition row_pair (row : csv_row) : string * string :=
  ("Loopback" +:+ canonical_digits (digits_of (Py.strip (row_loopback row))),
   Py.strip (or_empty (row_description row))).

(** A string without any line boundary of [str.splitlines]. *)
Definition no_linebreak (s : string) : bool :=
  Py.all_chars (fun c => negb (Py.is_linebreak c)) s.

(** The answer of the device to the probe of [loopback]. *)
Definition probe_text (conn : string -> string) (loopback : string)
  : string :=
  conn ("show running-config interface " +:+ loopback).

(** The lines of an answer that hold more than whitespace. *)
Definition nonblank_lines (text : string) : list string :=
  filter (fun ln => Py.truthy (Py.strip ln) = true) (Py.splitlines text).

(** A string without line feed, and one without carriage return. *)
Definition no_lf (s : string) : bool :=
  Py.all_chars (fun c => negb (Ascii.eqb c Py.LF)) s.

Definition no_cr (s : string) : bool :=
  Py.all_chars (fun c => negb (Ascii.eqb c Py.CR)) s.

(** The text of a file that holds [cmds], one per line, with the line
    ending CR LF. *)
Definition text_crlf (cmds : list string) : string :=
  fold_right (fun c acc => c +:+ String Py.CR (String Py.LF acc)) "" cmds.

(** ** The command line, the environment and the session *)

(** Truth value of an [Optional[str]]: [None] and the empty string are
    false. *)
Definition opt_truthy (o : option string) : bool :=
  match o with
  | Some s => Py.truthy s
  | None => false
  end.

(** [a or b] on [Optional[str]]. *)
Definition py_or (a b : option string) : option string :=
  if opt_truthy a then a else b.

(** The namespace [get_args] returns. *)
Module Args.
Record t : Type := Make {
  loopback : option string;
  description : option string;
  csv : option string;
  dry_run : bool;
  commit_confirmed : Z;
  generate_rollback : option string;
  apply_rollback : option string;
  delete_empty_loopbacks : bool;
  keep_empty_loopbacks : bool;
  host : option string;
  user : option string;
  password : option string;
}.
End Args.

(** The dictionary [load_device_from_env] returns. *)
Module Device.
Record t : Type := Make {
  device_type : string;
  host : option string;
  username : option string;
  password : option string;
  fast_cli : bool;
}.
End Device.

(** How a run ends when it does not return: [SystemExit] with its message,
    a Python exception, or an error raised by the session. *)
Inductive failure : Type :=
| SystemExit (msg : string)
| Exception (e : exn)
| SessionError.

(** The names of the credentials that are missing. *)
Definition missing_credentials (host user pwd : option string)
  : list string :=
  (fun kv => kv.1) <$>
    filter (fun kv => opt_truthy kv.2 = false)
           [("XR_HOST", host); ("XR_USER", user); ("XR_PASS", pwd)].

(** [load_device_from_env]; [getenv] is the environment once
    [load_dotenv()] has run. *)
Definition load_device_from_env (getenv : string -> option string)
    (args : Args.t) : failure + Device.t :=
  let host := py_or (Args.host args) (getenv "XR_HOST") in
  let user := py_or (Args.user args) (getenv "XR_USER") in
  let pwd := py_or (Args.password args) (getenv "XR_PASS") in
  let missing := missing_credentials host user pwd in
  if negb (bool_decide (missing = []))
     && negb (opt_truthy (Args.apply_rollback args))
  then inl (SystemExit ("Missing credentials/env: " +:+ Py.join ", " missing
                        +:+ ". Use env or --host/--user/--password."))
  else inr (Device.Make "cisco_xr" host user pwd true).

(** What a run does to the session and to the files, in the order it does
    it. *)
Inductive event : Type :=
| Connect (device : Device.t)
| SendCommand (command_string : string)
| SendConfigSet (config_commands : list string)
| Disconnect
| WriteFile (path text : string).

(** [str(host)] inside an f-string, [host] being an [Optional[str]]. *)
Definition format_opt (o : option string) : string :=
  match o with
  | Some s => s
  | None => "None"
  end.

(** [os.path.join(a, b)] where paths are separated by ["/"] and [a] does
    not end with it: an absolute [b] stands alone. *)
Definition path_join (a b : string) : string :=
  if Py.startswith b "/" then b else a +:+ "/" +:+ b.

Section Run.

(** The collaborators of a run: the device behind the session, which
    answers a command and moves to its next state, or raises; the
    environment once [load_dotenv()] has run; the time of the backup,
    formatted as [%Y%m%d-%H%M%S]; and the rows [csv.DictReader] makes of
    the content of a file. What is printed is not part of the model, and
    writing a file always succeeds. *)
Variable dev : Type.
Variable connect : Device.t -> dev -> bool.
Variable send_command : dev -> string -> option (string * dev).
Variable send_config_set : dev -> list string -> option (string * dev).
Variable getenv : string -> option string.
Variable now : string.
Variable dict_reader : string -> list csv_row.

(** The world a run acts on: the device, what the run has done so far, and
    the files. *)
Record world : Type := World {
  device_state : dev;
  trace : list event;
  files : gmap string string;
}.

(** A step of a run: it ends with a value or with a failure, in a new
    world. *)
Definition M (A : Type) : Type := world -> (failure + A) * world.

Definition ret {A : Type} (a : A) : M A := fun w => (inr a, w).

Definition bind {A B : Type} (m : M A) (k : A -> M B) : M B :=
  fun w =>
    match m w with
    | (inr a, w') => k a w'
    | (inl f, w') => (inl f, w')
    end.

Definition stop {A : Type} (f : failure) : M A := fun w => (inl f, w).

(** A function of the program that returns or raises. *)
Definition lift {A : Type} (r : result A) : M A :=
  match r with
  | Ok a => ret a
  | Raise e => stop (Exception e)
  end.

Definition lift_exit {A : Type} (r : failure + A) : M A :=
  match r with
  | inr a => ret a
  | inl f => stop f
  end.

(** [conn.send_command(q)] and [conn.send_config_set(cmds)]. *)
Definition conn_send_command (q : string) : M string :=
  fun w =>
    let w' := World (device_state w) (trace w ++ [SendCommand q]) (files w) in
    match send_command (device_state w) q with
    | Some (answer, d) => (inr answer, World d (trace w') (files w'))
    | None => (inl SessionError, w')
    end.

Definition conn_send_config_set (cmds : list string) : M string :=
  fun w =>
    let w' :=
      World (device_state w) (trace w ++ [SendConfigSet cmds]) (files w) in
    match send_config_set (device_state w) cmds with
    | Some (answer, d) => (inr answer, World d (trace w') (files w'))
    | None => (inl SessionError, w')
    end.

(** The [with] block of [main] around [ConnectHandler]: the session is
    opened with the keys of [device] and closed however the body ends. *)
Definition with_session {A : Type} (device : Device.t) (body : M A) : M A :=
  fun w =>
    let w1 := World (device_state w) (trace w ++ [Connect device]) (files w) in
    if connect device (device_state w) then
      let '(r, w2) := body w1 in
      (r, World (device_state w2) (trace w2 ++ [Disconnect]) (files w2))
    else (inl SessionError, w1).

(** [open(path, "w")] and [f.write(text)]. *)
Definition write_file (path text : string) : M unit :=
  fun w =>
    (inr tt,
     World (device_state w) (trace w ++ [WriteFile path text])
           (<[path := text]> (files w))).

(** [open(path)] and [f.read()]. *)
Definition read_file (path : string) : M string :=
  fun w =>
    match files w !! path with
    | Some text => (inr text, w)
    | None => (inl (Exception FileNotFoundError), w)
    end.

Definition read_running : M string :=
  conn_send_command "show running-config".

(** [backup_running]; the directory [backups] is taken to exist once
    [os.makedirs] has run. *)
Definition backup_running (running : string) (host : option string)
  : M string :=
  let ts := now in
  let path :=
    path_join "backups"
      (format_opt host +:+ "-" +:+ ts +:+ ".running-config.txt") in
  bind (write_file path running) (fun _ => ret path).

(** [get_interface_state] on the session: one query, whose answer is
    parsed. *)
Definition probe (loopback : string) : M state :=
  bind (conn_send_command ("show running-config interface " +:+ loopback))
       (fun text => ret (get_interface_state (fun _ => text) loopback)).

(** The loop of [main] that fills [before_states]. *)
Fixpoint probe_all (before_states : gmap string state)
    (target_pairs : list (string * string)) : M (gmap string state) :=
  match target_pairs with
  | [] => ret before_states
  | (lb, _desc) :: rest =>
      bind (probe lb)
           (fun st => probe_all (<[lb := st]> before_states) rest)
  end.

Definition apply_and_commit (cmds : list string) (commit_confirmed : Z)
  : M unit :=
  bind (conn_send_config_set cmds) (fun _resp =>
  if (0 <? commit_confirmed)%Z then
    bind (conn_send_command
            ("commit confirmed "
             +:+ Py.str_of_int (Z.to_N commit_confirmed))) (fun _ =>
    bind (conn_send_command "commit") (fun _ => ret tt))
  else
    bind (conn_send_command "commit") (fun _ => ret tt)).

(** [_save_commands_to_file] and [_read_commands_from_file] on the files
    of the world. *)
Definition save_commands (cmds : list string) (path : string) : M unit :=
  fun w =>
    match _save_commands_to_file cmds path (files w) with
    | Ok fs =>
        (inr tt,
         World (device_state w)
               (trace w ++ [WriteFile path (Py.join nl cmds +:+ nl)]) fs)
    | Raise e => (inl (Exception e), w)
    end.

Definition read_commands (path : string) : M (list string) :=
  fun w =>
    match _read_commands_from_file path (files w) with
    | Ok cmds => (inr cmds, w)
    | Raise e => (inl (Exception e), w)
    end.

(** [parse_csv_pairs(csv_path)]: the file is opened and its rows parsed. *)
Definition parse_csv_file (csv_path : string) : M (list (string * string)) :=
  bind (read_file csv_path)
       (fun text => lift (parse_csv_pairs (dict_reader text))).

(** The targets of [main]: the rows of the CSV file, or the single
    loopback of the command line. *)
Definition build_targets (args : Args.t) : M (list (string * string)) :=
  if opt_truthy (Args.csv args) then
    parse_csv_file (format_opt (Args.csv args))
  else
    if negb (opt_truthy (Args.loopback args))
       || negb (opt_truthy (Args.description args))
    then
      stop (SystemExit
              "Provide LOOPBACK + --description, or use --csv for bulk mode.")
    else
      bind (lift (normalize_loopback (format_opt (Args.loopback args))))
           (fun lb => ret [(lb, format_opt (Args.description args))]).

(** The branch of [main] that applies a rollback file. *)
Definition main_apply_rollback (args : Args.t) : M unit :=
  bind (lift_exit (load_device_from_env getenv args)) (fun device =>
  bind (read_commands (format_opt (Args.apply_rollback args))) (fun cmds =>
  if Args.dry_run args then ret tt
  else
    with_session device (
      bind read_running (fun before =>
      bind (backup_running before (Device.host device)) (fun _backup =>
      bind (apply_and_commit cmds (Args.commit_confirmed args)) (fun _ =>
      bind read_running (fun _after => ret tt))))))).

(** The branch of [main] that applies the intended changes. *)
Definition main_apply_changes (args : Args.t) : M unit :=
  let delete_empty :=
    Args.delete_empty_loopbacks args
    && negb (Args.keep_empty_loopbacks args) in
  bind (build_targets args) (fun target_pairs =>
  let planned_cmds := build_commands_bulk target_pairs in
  if Args.dry_run args && negb (opt_truthy (Args.generate_rollback args))
  then ret tt
  else
    bind (lift_exit (load_device_from_env getenv args)) (fun device =>
    with_session device (
      bind read_running (fun before_full =>
      bind (backup_running before_full (Device.host device)) (fun _backup =>
      let apply :=
        bind (apply_and_commit planned_cmds (Args.commit_confirmed args))
             (fun _ => bind read_running (fun _after_full => ret tt)) in
      if opt_truthy (Args.generate_rollback args) then
        bind (probe_all ∅ target_pairs) (fun before_states =>
        bind (lift (generate_rollback_for_pairs before_states target_pairs
                      delete_empty)) (fun rb_cmds =>
        bind (save_commands rb_cmds
                (format_opt (Args.generate_rollback args))) (fun _ =>
        if Args.dry_run args then ret tt else apply)))
      else apply))))).

Definition main (args : Args.t) : M unit :=
  if opt_truthy (Args.apply_rollback args) then main_apply_rollback args
  else main_apply_changes args.

(** A step all of whose events satisfy [p]. *)
Definition emits_all {A : Type} (p : event -> bool) (m : M A) : Prop :=
  forall w, exists new,
    trace (m w).2 = trace w ++ new /\ Forall (fun e => p e = true) new.

(** A step whose events satisfy [p] up to some point and [q] from there. *)
Definition emits_then {A : Type} (p q : event -> bool) (m : M A) : Prop :=
  forall w, exists first second,
    trace (m w).2 = trace w ++ first ++ second
    /\ Forall (fun e => p e = true) first
    /\ Forall (fun e => q e = true) second.

(** A step that leaves the world as it is. *)
Definition leaves_world {A : Type} (m : M A) : Prop :=
  forall w, (m w).2 = w.

(** A step that leaves the files as they are. *)
Definition keeps_files {A : Type} (m : M A) : Prop :=
  forall w, files (m w).2 = files w.

(** A step that, when it returns, has had an event that satisfies [p]. *)
Definition reaches {A : Type} (p : event -> bool) (m : M A) : Prop :=
  forall w a w', m w = (inr a, w') ->
    exists new,
      trace w' = trace w ++ new /\ Exists (fun e => p e = true) new.

End Run.

Arguments World {dev} _ _ _.
Arguments device_state {dev} _.
Arguments trace {dev} _.
Arguments files {dev} _.
Arguments ret {dev A} _ _.
Arguments bind {dev A B} _ _ _.
Arguments stop {dev A} _ _.
Arguments lift {dev A} _ _.
Arguments lift_exit {dev A} _ _.
Arguments conn_send_command {dev} _ _ _.
Arguments conn_send_config_set {dev} _ _ _.
Arguments with_session {dev} _ {A} _ _ _.
Arguments write_file {dev} _ _ _.
Arguments read_file {dev} _ _.
Arguments read_running {dev} _ _.
Arguments backup_running {dev} _ _ _ _.
Arguments probe {dev} _ _ _.
Arguments probe_all {dev} _ _ _ _.
Arguments apply_and_commit {dev} _ _ _ _ _.
Arguments save_commands {dev} _ _ _.
Arguments read_commands {dev} _ _.
Arguments parse_csv_file {dev} _ _ _.
Arguments build_targets {dev} _ _ _.
Arguments main_apply_rollback {dev} _ _ _ _ _ _ _.
Arguments main_apply_changes {dev} _ _ _ _ _ _ _ _.
Arguments main {dev} _ _ _ _ _ _ _ _.
Arguments emits_all {dev A} _ _.
Arguments emits_then {dev A} _ _ _.
Arguments leaves_world {dev A} _.
Arguments keeps_files {dev A} _.
Arguments reaches {dev A} _ _.

(** An event that cannot change the configuration of the device: opening
    or closing the session, a [show running-config] query, writing a
    file. *)
Definition harmless (e : event) : bool :=
  match e with
  | Connect _ | Disconnect | WriteFile _ _ => true
  | SendCommand q => Py.startswith q "show running-config"
  | SendConfigSet _ => false
  end.

(** An event of the phase in which the configuration is changed: the
    configuration commands, a commit, the final [show running-config], and
    the end of the session. *)
Definition changing (e : event) : bool :=
  match e with
  | SendConfigSet _ | Disconnect => true
  | SendCommand q =>
      String.eqb q "commit" || Py.startswith q "commit confirmed "
      || String.eqb q "show running-config"
  | Connect _ | WriteFile _ _ => false
  end.

(** The configuration commands, and the plain commit. *)
Definition is_config_set (e : event) : bool :=
  match e with
  | SendConfigSet _ => true
  | _ => false
  end.

Definition is_commit (e : event) : bool :=
  match e with
  | SendCommand q => String.eqb q "commit"
  | _ => false
  end.

(** Every configuration sent is [cmds]. *)
Definition sends_only (cmds : list string) (e : event) : bool :=
  match e with
  | SendConfigSet c => bool_decide (c = cmds)
  | _ => true
  end.

(** The run used in the examples: a device that answers every query with
    the stanza of [two_descriptions] and accepts every command, credentials
    from the environment, and a file system with one rollback file. *)
Definition example_send_command (_ : unit) (q : string)
  : option (string * unit) :=
  Some (two_descriptions q, tt).

Definition example_send_config_set (_ : unit) (_ : list string)
  : option (string * unit) :=
  Some ("", tt).

Definition example_connect (_ : Device.t) (_ : unit) : bool := true.

Definition example_getenv (_ : string) : option string := Some "lab".

Definition example_world : world unit :=
  World tt [] {[ "rollback.cmds" := "no interface Loopback1" +:+ nl ]}.

Definition example_run (args : Args.t) : M unit unit :=
  main example_connect example_send_command example_send_config_set
    example_getenv "20260101-000000" (fun _ => []) args.

Definition args_change : Args.t :=
  Args.Make (Some "1") (Some "new") None false 0 (Some "rollback.cmds") None
    true false None None None.

Definition args_dry_run : Args.t :=
  Args.Make (Some "1") (Some "new") None true 0 (Some "rollback.cmds") None
    true false None None None.

Definition args_preview : Args.t :=
  Args.Make (Some "1") (Some "new") None true 0 None None
    true false None None None.

Definition args_bad : Args.t :=
  Args.Make (Some "Loopback1a") (Some "new") None false 0 None None
    true false None None None.

Definition args_rollback : Args.t :=
  Args.Make None None None false 60 None (Some "rollback.cmds")
    true false None None None.

(** ** Facts about strings *)

Lemma startswith_app (p x : string) : Py.startswith (p +:+ x) p = true.
Proof.
  unfold Py.startswith. induction p as [|c p IH]; simpl.
  - by destruct x.
  - by destruct (ascii_dec c c).
Qed.

Lemma append_cons (x : ascii) (a b : string) :
  String x a +:+ b = String x (a +:+ b).
Proof. reflexivity. Qed.

Lemma append_nil_l (b : string) : "" +:+ b = b.
Proof. reflexivity. Qed.

Ltac unfold_append := rewrite ?append_cons, ?append_nil_l.

Lemma append_assoc (a b c : string) : (a +:+ b) +:+ c = a +:+ b +:+ c.
Proof. induction a as [|x a IH]; unfold_append; [done | by f_equal]. Qed.

Lemma append_nil_r (a : string) : a +:+ "" = a.
Proof. induction a as [|x a IH]; unfold_append; [done | by f_equal]. Qed.

Lemma all_chars_app (p : ascii -> bool) (a b : string) :
  Py.all_chars p (a +:+ b) = Py.all_chars p a && Py.all_chars p b.
Proof.
  induction a as [|x a IH]; unfold_append; simpl; [done |].
  by rewrite IH, andb_assoc.
Qed.

Lemma prefix_nil (s : string) : String.prefix "" s = true.
Proof. by destruct s. Qed.

Lemma prefix_cons (a b : ascii) (p s : string) :
  String.prefix (String a p) (String b s) =
  if ascii_dec a b then String.prefix p s else false.
Proof. reflexivity. Qed.

Lemma substring_0_0 (s : string) : String.substring 0 0 s = "".
Proof. by destruct s. Qed.

(** ** The emptiness classifier *)

Example is_empty_loopback_nil : is_empty_loopback [] = true.
Proof. reflexivity. Qed.

Example is_empty_loopback_description :
  is_empty_loopback ["description X"] = true.
Proof. reflexivity. Qed.

Example is_empty_loopback_mtu :
  is_empty_loopback ["description X"; "mtu 9000"] = false.
Proof. reflexivity. Qed.

Lemma is_empty_loopback_Forall (sub_lines : list string) :
  is_empty_loopback sub_lines = true <->
  Forall (fun ln => ln = "" \/ is_description_line ln = true) sub_lines.
Proof.
  induction sub_lines as [|ln rest IH]; [split; constructor |].
  cbn [is_empty_loopback].
  destruct (negb (Py.truthy ln) || Py.startswith ln "description ") eqn:E.
  - rewrite IH. split; intros H; [| by inversion H].
    constructor; [| done].
    apply orb_true_iff in E as [E | E]; [left; by destruct ln | by right].
  - split; [done |].
    intros H. inversion H as [|? ? [-> | Hd] _]; subst; [done |].
    unfold is_description_line in Hd. rewrite Hd in E.
    by rewrite orb_true_r in E.
Qed.

Lemma is_blank_trimmed (ln : string) :
  Py.strip ln = ln -> is_blank ln = true <-> ln = "".
Proof.
  unfold is_blank. intros ->. by destruct ln.
Qed.

(** On sub-lines that are already trimmed, as the prober leaves them, blank
    and empty are the same thing. *)
Lemma is_empty_loopback_trimmed (sub_lines : list string) :
  Forall (fun ln => Py.strip ln = ln) sub_lines ->
  is_empty_loopback sub_lines = true <->
  Forall (fun ln => is_blank ln = true \/ is_description_line ln = true)
         sub_lines.
Proof.
  intros Htrim. rewrite is_empty_loopback_Forall.
  induction Htrim as [|ln rest Hln _ IH]; [done |].
  rewrite !Forall_cons, IH, (is_blank_trimmed ln Hln). done.
Qed.

(** C7, as stated, fails on a sub-line of whitespace: the line [" "] is
    blank, yet the classifier counts it as content. *)
Lemma is_empty_loopback_space_not_trivial :
  ~ (is_empty_loopback [" "] = true <->
     Forall (fun ln => is_blank ln = true \/ is_description_line ln = true)
            [" "]).
Proof.
  intros [_ H]. discriminate H. constructor; [by left | constructor].
Qed.

(** C7 (amended): a stanza is classified trivial exactly when every sub-line
    is the empty string or begins with ["description "]; so the empty
    sequence is trivial, a single description line is trivial, and a
    sub-line such as ["mtu 9000"] makes the stanza non-trivial wherever it
    stands. *)
Theorem is_empty_loopback_iff (sub_lines : list string) :
  (is_empty_loopback sub_lines = true <->
   Forall (fun ln => ln = "" \/ is_description_line ln = true) sub_lines)
  /\ is_empty_loopback [] = true
  /\ (forall x, is_empty_loopback ["description " +:+ x] = true)
  /\ (forall before after,
        is_empty_loopback (before ++ "mtu 9000" :: after) = false).
Proof.
  split; [apply is_empty_loopback_Forall |].
  split; [reflexivity |]. split.
  - intros x. apply is_empty_loopback_Forall.
    constructor; [right | constructor]. apply startswith_app.
  - intros before after.
    destruct (is_empty_loopback (before ++ "mtu 9000" :: after)) eqn:E; [| done].
    apply is_empty_loopback_Forall in E.
    apply Forall_app in E as [_ E]. inversion E as [|? ? [? | ?] _]; done.
Qed.

(** ** The state prober *)

Lemma fold_probe_step (rest : list string) (d0 : option string)
    (sl0 : list string) :
  fold_left probe_step rest (d0, sl0) =
  (from_option Some d0 (last_description (Py.lstrip <$> rest)),
   sl0 ++ (Py.lstrip <$> rest)).
Proof.
  revert d0 sl0. induction rest as [|ln rest IH]; intros d0 sl0.
  - simpl. by rewrite app_nil_r.
  - cbn [fold_left].
    replace (probe_step (d0, sl0) ln) with
      (if is_description_line (Py.lstrip ln)
       then (Some (description_value (Py.lstrip ln)), sl0 ++ [Py.lstrip ln])
       else (d0, sl0 ++ [Py.lstrip ln])) by reflexivity.
    rewrite fmap_cons. unfold last_description. rewrite filter_cons.
    destruct (is_description_line (Py.lstrip ln)) eqn:E; rewrite IH.
    + rewrite decide_True by done.
      rewrite <- (assoc_L (++)). f_equal. unfold last_description.
      destruct (filter _ (Py.lstrip <$> rest)) as [|x xs]; [done |].
      rewrite last_cons_cons.
      destruct (last (x :: xs)) eqn:L; [done |]. by apply last_None in L.
    + rewrite decide_False by (by intros ?).
      by rewrite <- (assoc_L (++)).
Qed.

(** The snapshot's attribute value is the value of the last description
    line among its sub-lines. *)
Lemma get_interface_state_description (conn : string -> string)
    (loopback : string) :
  description (get_interface_state conn loopback) =
  last_description (lines (get_interface_state conn loopback)).
Proof.
  unfold get_interface_state.
  destruct (Py.rstrip <$> _) as [|l0 rest]; [done |].
  destruct (Py.startswith l0 "interface "); [| done].
  rewrite fold_probe_step. simpl.
  by destruct (last_description _).
Qed.

Lemma last_description_app (pre post : list string) (d : string) :
  is_description_line d = true ->
  Forall (fun ln => is_description_line ln = false) post ->
  last_description (pre ++ d :: post) = Some (description_value d).
Proof.
  intros Hd Hpost. unfold last_description.
  rewrite filter_app, filter_cons, decide_True by done.
  replace (filter _ post) with (@nil string).
  - by rewrite last_snoc.
  - induction Hpost as [|x xs Hx _ IH]; [done |].
    rewrite filter_cons, decide_False by (by rewrite Hx). done.
Qed.

(** C2, as stated, fails: of two description sub-lines the prober keeps the
    value of the second, not of the first. *)
Lemma get_interface_state_not_first :
  lines (get_interface_state two_descriptions "Loopback1") =
    ["description A"; "description B"]
  /\ first_description
       (lines (get_interface_state two_descriptions "Loopback1")) = Some "A"
  /\ description (get_interface_state two_descriptions "Loopback1") = Some "B"
  /\ description (get_interface_state two_descriptions "Loopback1") <>
     first_description
       (lines (get_interface_state two_descriptions "Loopback1")).
Proof. repeat split; vm_compute; congruence. Qed.

(** C2 (amended): when the stanza holds several description sub-lines, the
    snapshot's attribute value is the trimmed remainder of the last of them;
    the earlier ones are overwritten. *)
Theorem get_interface_state_last_wins (conn : string -> string)
    (loopback : string) (pre post : list string) (d : string) :
  lines (get_interface_state conn loopback) = pre ++ d :: post ->
  is_description_line d = true ->
  Forall (fun ln => is_description_line ln = false) post ->
  description (get_interface_state conn loopback) =
  Some (description_value d).
Proof.
  intros Hlines Hd Hpost.
  rewrite get_interface_state_description, Hlines.
  by apply last_description_app.
Qed.

Lemma get_interface_state_last_wins_witness :
  description (get_interface_state two_descriptions "Loopback1") = Some "B".
Proof.
  apply (get_interface_state_last_wins two_descriptions "Loopback1"
           ["description A"] [] "description B").
  - reflexivity.
  - reflexivity.
  - constructor.
Defined.

(** C9: a snapshot with [exists = false] has no attribute value and no
    sub-lines, whatever text the device answered. *)
Theorem get_interface_state_absent (conn : string -> string)
    (loopback : string) :
  exists_ (get_interface_state conn loopback) = false ->
  description (get_interface_state conn loopback) = None
  /\ lines (get_interface_state conn loopback) = [].
Proof.
  unfold get_interface_state.
  destruct (Py.rstrip <$> _) as [|l0 rest]; [done |].
  destruct (Py.startswith l0 "interface "); [| done].
  destruct (fold_left probe_step rest (None, [])). simpl. discriminate.
Qed.

Lemma get_interface_state_absent_witness :
  description
    (get_interface_state (fun _ => "% No such configuration item(s)")
       "Loopback9") = None
  /\ lines
       (get_interface_state (fun _ => "% No such configuration item(s)")
          "Loopback9") = [].
Proof.
  apply (get_interface_state_absent
           (fun _ => "% No such configuration item(s)") "Loopback9").
  reflexivity.
Defined.

(** ** What the prober's sub-lines look like *)

Lemma rstrip_idemp (s : string) : Py.rstrip (Py.rstrip s) = Py.rstrip s.
Proof.
  induction s as [|c s IH]; [done |].
  cbn [Py.rstrip]. cbv zeta.
  destruct (Py.is_empty (Py.rstrip s) && Py.isspace c) eqn:E; [done |].
  cbn [Py.rstrip]. cbv zeta. by rewrite IH, E.
Qed.

Lemma rstrip_fixed_tail (c : ascii) (r : string) :
  Py.rstrip (String c r) = String c r -> Py.rstrip r = r.
Proof.
  cbn [Py.rstrip]. cbv zeta.
  destruct (Py.is_empty (Py.rstrip r) && Py.isspace c); [done |].
  by intros [= ->].
Qed.

Lemma rstrip_fixed_lstrip (s : string) :
  Py.rstrip s = s -> Py.rstrip (Py.lstrip s) = Py.lstrip s.
Proof.
  induction s as [|c s IH]; [done |]. intros H.
  cbn [Py.lstrip]. destruct (Py.isspace c); [| done].
  apply IH. by apply rstrip_fixed_tail in H.
Qed.

Lemma rstrip_fixed_suffix (p rest : string) :
  Py.rstrip (p +:+ rest) = p +:+ rest -> Py.rstrip rest = rest.
Proof.
  induction p as [|c p IH]; [done |]. unfold_append. intros H.
  apply IH. by apply rstrip_fixed_tail in H.
Qed.

Lemma lstrip_idemp (s : string) : Py.lstrip (Py.lstrip s) = Py.lstrip s.
Proof.
  induction s as [|c s IH]; [done |].
  cbn [Py.lstrip]. destruct (Py.isspace c) eqn:E; [done |].
  cbn [Py.lstrip]. by rewrite E.
Qed.

(** Trimming on the left cannot empty a right-trimmed string. *)
Lemma lstrip_nonempty (s : string) :
  Py.rstrip s = s -> s <> "" -> Py.lstrip s <> "".
Proof.
  induction s as [|c s IH]; [done |]. intros H _.
  cbn [Py.lstrip]. destruct (Py.isspace c) eqn:E; [| done].
  apply IH; [by apply rstrip_fixed_tail in H |].
  intros ->. cbn in H. by rewrite E in H.
Qed.

Lemma startswith_split (s p : string) :
  Py.startswith s p = true -> s = p +:+ Py.slice_from (String.length p) s.
Proof.
  unfold Py.startswith. revert s. induction p as [|a p IH]; intros s H.
  - done.
  - destruct s as [|b s]; [done |]. rewrite prefix_cons in H.
    destruct (ascii_dec a b) as [<- | ?]; [| done].
    unfold_append. cbn [String.length Py.slice_from]. f_equal. by apply IH.
Qed.

(** The value of a description line that is trimmed is never empty. *)
Lemma description_value_nonempty (raw : string) :
  Py.rstrip raw = raw ->
  is_description_line raw = true ->
  description_value raw <> "".
Proof.
  intros Htrim Hd. unfold description_value, Py.strip.
  apply startswith_split in Hd.
  set (rest := Py.slice_from (String.length "description ") raw) in *.
  rewrite Hd in Htrim. pose proof (rstrip_fixed_suffix _ _ Htrim) as Hrest.
  rewrite Hrest. apply lstrip_nonempty; [done |].
  intros Hnil. rewrite Hnil in Htrim. discriminate Htrim.
Qed.

(** Every sub-line of a snapshot is trimmed on both sides. *)
Lemma get_interface_state_lines_trimmed (conn : string -> string)
    (loopback : string) :
  Forall (fun ln => Py.strip ln = ln)
         (lines (get_interface_state conn loopback)).
Proof.
  unfold get_interface_state.
  destruct (Py.rstrip <$> _) as [|l0 rest] eqn:Hl; [constructor |].
  destruct (Py.startswith l0 "interface "); [| constructor].
  rewrite fold_probe_step. cbn [lines app].
  assert (Forall (fun ln => Py.rstrip ln = ln) (l0 :: rest)) as Hall.
  { rewrite <- Hl. apply Forall_fmap, Forall_forall. intros x _.
    apply rstrip_idemp. }
  apply Forall_cons in Hall as [_ Hall].
  apply Forall_fmap. eapply Forall_impl; [exact Hall |].
  intros ln Hln. simpl. unfold Py.strip.
  by rewrite (rstrip_fixed_lstrip ln Hln), lstrip_idemp.
Qed.

(** The prober never reports a present but empty attribute value. *)
Lemma get_interface_state_description_nonempty (conn : string -> string)
    (loopback : string) :
  description (get_interface_state conn loopback) <> Some "".
Proof.
  rewrite get_interface_state_description.
  pose proof (get_interface_state_lines_trimmed conn loopback) as Htrim.
  unfold last_description.
  destruct (last (filter _ _)) as [d|] eqn:Hlast; [| done].
  apply last_Some_elem_of, list_elem_of_filter in Hlast as [Hd Hin].
  rewrite Forall_forall in Htrim. specialize (Htrim d Hin).
  simpl. intros [= Hnil]. revert Hnil.
  apply description_value_nonempty; [| done].
  unfold Py.strip in Htrim. rewrite <- Htrim at 2.
  rewrite <- Htrim at 1.
  apply rstrip_fixed_lstrip, rstrip_idemp.
Qed.

(** ** The rollback synthesizer *)

Lemma rollback_loop_cons (m : gmap string state) (flag : bool)
    (cmds : list string) (lb new : string) (rest : list (string * string)) :
  rollback_loop m flag cmds ((lb, new) :: rest) =
  match m !! lb with
  | None => Raise KeyError
  | Some st => rollback_loop m flag (cmds ++ rule_block st lb flag) rest
  end.
Proof.
  cbn [rollback_loop]. destruct (m !! lb) as [[e d l]|]; [| done].
  unfold rule_block. cbn [exists_ description lines].
  destruct e; cbn [negb]; [| done].
  destruct (flag && is_empty_loopback l); [done |].
  destruct d as [[|c r]|]; cbn [Py.truthy Py.is_empty negb];
    by rewrite <- (assoc_L (++)).
Qed.

(** The commands already built only prefix the result. *)
Lemma rollback_loop_acc (m : gmap string state) (flag : bool)
    (cmds : list string) (pairs : list (string * string)) :
  rollback_loop m flag cmds pairs =
  p ← rollback_loop m flag [] pairs; Ok (cmds ++ p).
Proof.
  revert cmds. induction pairs as [|[lb new] rest IH]; intros cmds.
  - simpl. by rewrite app_nil_r.
  - rewrite !rollback_loop_cons. destruct (m !! lb) as [st|]; [| done].
    rewrite IH, (IH ([] ++ _)).
    destruct (rollback_loop m flag [] rest) as [p|e]; [| done].
    simpl. by rewrite (assoc_L (++)).
Qed.

Lemma generate_rollback_nil (m : gmap string state) (flag : bool) :
  generate_rollback_for_pairs m [] flag = Ok [].
Proof. reflexivity. Qed.

Lemma generate_rollback_cons (m : gmap string state) (flag : bool)
    (lb new : string) (rest : list (string * string)) :
  generate_rollback_for_pairs m ((lb, new) :: rest) flag =
  match m !! lb with
  | None => Raise KeyError
  | Some st =>
      p ← generate_rollback_for_pairs m rest flag;
      Ok (rule_block st lb flag ++ p)
  end.
Proof.
  unfold generate_rollback_for_pairs. rewrite rollback_loop_cons.
  destruct (m !! lb) as [st|]; [| done].
  by rewrite rollback_loop_acc.
Qed.

Lemma generate_rollback_single (m : gmap string state) (flag : bool)
    (lb new : string) (st : state) :
  m !! lb = Some st ->
  generate_rollback_for_pairs m [(lb, new)] flag = Ok (rule_block st lb flag).
Proof.
  intros H. rewrite generate_rollback_cons, H, generate_rollback_nil.
  simpl. by rewrite app_nil_r.
Qed.

Lemma generate_rollback_app (m : gmap string state) (flag : bool)
    (b1 b2 : list (string * string)) :
  generate_rollback_for_pairs m (b1 ++ b2) flag =
  p1 ← generate_rollback_for_pairs m b1 flag;
  p2 ← generate_rollback_for_pairs m b2 flag;
  Ok (p1 ++ p2).
Proof.
  induction b1 as [|[lb new] b1 IH].
  - rewrite app_nil_l, generate_rollback_nil.
    by destruct (generate_rollback_for_pairs m b2 flag).
  - rewrite <- app_comm_cons, !generate_rollback_cons.
    destruct (m !! lb) as [st|]; [| done]. rewrite IH.
    destruct (generate_rollback_for_pairs m b1 flag) as [p1|]; [| done].
    simpl. destruct (generate_rollback_for_pairs m b2 flag) as [p2|]; [| done].
    simpl. by rewrite (assoc_L (++)).
Qed.

(** With a snapshot for every change, the plan is the blocks of the changes,
    one after the other. *)
Lemma generate_rollback_blocks (m : gmap string state) (flag : bool)
    (pairs : list (string * string)) :
  Forall (fun c => is_Some (m !! c.1)) pairs ->
  exists blocks : list (list string),
    generate_rollback_for_pairs m pairs flag = Ok (concat blocks)
    /\ Forall2
         (fun c block =>
            exists st, m !! c.1 = Some st /\ block = rule_block st c.1 flag)
         pairs blocks.
Proof.
  induction 1 as [|[lb new] rest [st Hst] _ (blocks & Hgen & Hall)].
  - exists []. split; [done | constructor].
  - exists (rule_block st lb flag :: blocks). simpl in Hst. split.
    + by rewrite generate_rollback_cons, Hst, Hgen.
    + constructor; [by exists st | done].
Qed.

(** A change whose entity was never probed stops the synthesis. *)
Lemma generate_rollback_missing (m : gmap string state) (flag : bool)
    (pre post : list (string * string)) (lb new : string) :
  Forall (fun c => is_Some (m !! c.1)) pre ->
  m !! lb = None ->
  generate_rollback_for_pairs m (pre ++ (lb, new) :: post) flag =
  Raise KeyError.
Proof.
  intros Hpre Hlb. rewrite generate_rollback_app.
  destruct (generate_rollback_blocks m flag pre Hpre) as (blocks & -> & _).
  simpl. by rewrite generate_rollback_cons, Hlb.
Qed.

(** C1, as stated, fails on a snapshot whose attribute value is present and
    empty: the rule worded with "present" sets the description again, the
    synthesizer clears it. *)
Lemma generate_rollback_present_empty :
  generate_rollback_for_pairs empty_description_states
    [("Loopback1", "new")] false
  = Ok ["interface Loopback1"; "no description"]
  /\ rule_block_present (State true (Some "") ["mtu 9000"]) "Loopback1" false
     = ["interface Loopback1"; "description "]
  /\ generate_rollback_for_pairs empty_description_states
       [("Loopback1", "new")] false
     <> Ok (rule_block_present (State true (Some "") ["mtu 9000"])
              "Loopback1" false).
Proof. repeat split; vm_compute; congruence. Qed.

(** C1 (amended): for every snapshot map covering the batch and every
    deleteTrivial flag, the plan consists of one block per change, and the
    block follows the three-way rule: one ['no interface <id>'] when the
    snapshot has exists = false; else one ['no interface <id>'] when
    deleteTrivial holds and the sub-lines are trivial for the classifier;
    else ['interface <id>'] followed by ['description <old>'] when the
    attribute value was present and non-empty, and by ['no description']
    when it was absent or empty. *)
Theorem generate_rollback_three_way (m : gmap string state)
    (pairs : list (string * string)) (delete_trivial : bool) :
  Forall (fun c => is_Some (m !! c.1)) pairs ->
  exists blocks : list (list string),
    generate_rollback_for_pairs m pairs delete_trivial = Ok (concat blocks)
    /\ Forall2
         (fun c block =>
            exists st, m !! c.1 = Some st
                       /\ block = rule_block st c.1 delete_trivial)
         pairs blocks.
Proof. apply generate_rollback_blocks. Qed.

Lemma generate_rollback_three_way_witness :
  exists blocks : list (list string),
    generate_rollback_for_pairs (list_to_map example_items) example_batch true
    = Ok (concat blocks)
    /\ Forall2
         (fun c block =>
            exists st, (list_to_map example_items : gmap string state) !! c.1
                       = Some st
                       /\ block = rule_block st c.1 true)
         example_batch blocks.
Proof.
  apply (generate_rollback_three_way (list_to_map example_items)
           example_batch true).
  repeat constructor; eexists; reflexivity.
Defined.

Example generate_rollback_example :
  generate_rollback_for_pairs (list_to_map example_items) example_batch true
  = Ok ["interface Loopback3"; "no description";
        "no interface Loopback1"; "no interface Loopback2"].
Proof. reflexivity. Qed.

Example generate_rollback_example_keep :
  generate_rollback_for_pairs (list_to_map example_items) example_batch false
  = Ok ["interface Loopback3"; "no description";
        "no interface Loopback1";
        "interface Loopback2"; "description old"].
Proof. reflexivity. Qed.



(** Probing every target first gives a dictionary that covers the batch. *)
Lemma probe_targets_lookup (conn : string -> string)
    (pairs : list (string * string)) (lb : string) :
  lb ∈ pairs.*1 ->
  probe_targets conn pairs !! lb = Some (get_interface_state conn lb).
Proof.
  unfold probe_targets.
  assert (forall (m0 : gmap string state),
            (lb ∈ pairs.*1 \/ m0 !! lb = Some (get_interface_state conn lb)) ->
            fold_left
              (fun before_states '(lb, _) =>
                 <[lb := get_interface_state conn lb]> before_states)
              pairs m0 !! lb = Some (get_interface_state conn lb)) as H.
  { induction pairs as [|[k d] rest IH]; intros m0 [Hin | Hm0]; simpl.
    - by apply elem_of_nil in Hin.
    - done.
    - apply IH. rewrite fmap_cons in Hin. apply elem_of_cons in Hin as [-> | Hin].
      + right. apply lookup_insert_eq.
      + by left.
    - apply IH. right. destruct (decide (k = lb)) as [-> | Hne].
      + apply lookup_insert_eq.
      + by rewrite lookup_insert_ne. }
  intros Hin. apply H. by left.
Qed.

Lemma probe_targets_covers (conn : string -> string)
    (pairs : list (string * string)) :
  Forall (fun c => is_Some (probe_targets conn pairs !! c.1)) pairs.
Proof.
  apply Forall_forall. intros [lb d] Hin. eexists.
  apply probe_targets_lookup. simpl.
  apply list_elem_of_fmap. by exists (lb, d).
Qed.

(** C10: in the restore branch, a prior attribute value that is present
    but empty is cleared with ['no description'], as an absent one is;
    this holds wherever the change stands in the batch. *)
Theorem generate_rollback_empty_description (m : gmap string state)
    (pre post : list (string * string)) (lb new : string) (st : state)
    (delete_trivial : bool) (p1 p2 : list string) :
  m !! lb = Some st ->
  exists_ st = true ->
  delete_trivial && is_empty_loopback (lines st) = false ->
  description st = Some "" ->
  generate_rollback_for_pairs m pre delete_trivial = Ok p1 ->
  generate_rollback_for_pairs m post delete_trivial = Ok p2 ->
  generate_rollback_for_pairs m (pre ++ (lb, new) :: post) delete_trivial
  = Ok (p1 ++ ["interface " +:+ lb; "no description"] ++ p2).
Proof.
  intros Hst Hex Hrestore Hdesc Hpre Hpost.
  rewrite generate_rollback_app, Hpre, generate_rollback_cons, Hst, Hpost.
  unfold rule_block. by rewrite Hex, Hrestore, Hdesc.
Qed.

Lemma generate_rollback_empty_description_witness :
  generate_rollback_for_pairs empty_description_states
    ([] ++ ("Loopback1", "new") :: []) true
  = Ok ([] ++ ["interface " +:+ "Loopback1"; "no description"] ++ []).
Proof.
  apply (generate_rollback_empty_description empty_description_states [] []
           "Loopback1" "new" (State true (Some "") ["mtu 9000"]) true [] []);
    reflexivity.
Defined.

(** ** The command-file codec *)

Lemma single_line_split (c : ascii) (r : string) :
  single_line (String c r) = true ->
  Ascii.eqb c Py.LF = false /\ Ascii.eqb c Py.CR = false
  /\ single_line r = true.
Proof.
  unfold single_line. simpl. intros H.
  apply andb_true_iff in H as [H1 H2].
  apply negb_true_iff, orb_false_iff in H1 as [? ?]. done.
Qed.

Lemma text_of_app (l1 l2 : list string) :
  text_of (l1 ++ l2) = text_of l1 +:+ text_of l2.
Proof.
  induction l1 as [|c l1 IH]; [done |].
  rewrite <- app_comm_cons. unfold text_of in *. cbn [fold_right].
  by rewrite IH, append_assoc.
Qed.

Lemma single_line_text_of (cmds : list string) :
  Forall (fun c => single_line c = true) cmds ->
  Py.all_chars (fun c => negb (Ascii.eqb c Py.CR)) (text_of cmds) = true.
Proof.
  induction 1 as [|c cmds Hc _ IH]; simpl; [done |].
  rewrite all_chars_app. simpl. rewrite IH, andb_true_r.
  clear IH. induction c as [|x c IHc]; [done |].
  apply single_line_split in Hc as (_ & Hx & Hc).
  simpl. by rewrite Hx, IHc.
Qed.

Lemma universal_newlines_id (s : string) :
  Py.all_chars (fun c => negb (Ascii.eqb c Py.CR)) s = true ->
  universal_newlines s = s.
Proof.
  induction s as [|c r IH]; [done |].
  simpl. intros H. apply andb_true_iff in H as [Hc Hr].
  apply negb_true_iff in Hc. rewrite Hc. by rewrite IH.
Qed.

Lemma file_lines_line (c rest : string) :
  single_line c = true ->
  file_lines (c +:+ String Py.LF rest) = (c +:+ nl) :: file_lines rest.
Proof.
  induction c as [|x c IH]; intros Hc; [done |].
  apply single_line_split in Hc as (Hx & _ & Hc).
  simpl. rewrite Hx, (IH Hc). done.
Qed.

Lemma file_lines_text_of (cmds : list string) :
  Forall (fun c => single_line c = true) cmds ->
  file_lines (text_of cmds) = (fun c => c +:+ nl) <$> cmds.
Proof.
  induction 1 as [|c cmds Hc _ IH]; [done |].
  simpl. by rewrite file_lines_line, IH.
Qed.

Lemma rstrip_app_space (c : string) (a : ascii) :
  Py.isspace a = true -> Py.rstrip (c +:+ String a "") = Py.rstrip c.
Proof.
  intros Ha. induction c as [|x c IH]; simpl; [by rewrite Ha | by rewrite IH].
Qed.

Lemma rstrip_lf_line (c : string) :
  single_line c = true -> Py.rstrip_lf (c +:+ nl) = c.
Proof.
  induction c as [|x c IH]; intros Hc; [done |].
  apply single_line_split in Hc as (Hx & _ & Hc).
  simpl. rewrite (IH Hc), Hx. by rewrite andb_false_r.
Qed.

Lemma decode_text_of (cmds : list string) :
  Forall kept cmds -> decode_text (text_of cmds) = cmds.
Proof.
  intros Hkept. unfold decode_text.
  assert (Forall (fun c => single_line c = true) cmds) as Hsingle.
  { eapply Forall_impl; [exact Hkept |]. by intros c [_ ?]. }
  rewrite universal_newlines_id by by apply single_line_text_of.
  rewrite file_lines_text_of by done. clear Hsingle.
  induction Hkept as [|c cmds [Hblank Hsingle] _ IH]; [done |].
  rewrite fmap_cons, filter_cons.
  replace (Py.strip (c +:+ nl)) with (Py.strip c)
    by (unfold Py.strip, nl; by rewrite rstrip_app_space).
  unfold is_blank in Hblank.
  rewrite decide_True by (unfold Py.truthy; by rewrite Hblank).
  rewrite fmap_cons, IH, rstrip_lf_line by done. done.
Qed.

(** The text [_save_commands_to_file] writes for a non-empty sequence. *)
Lemma join_text_of (cmds : list string) :
  cmds <> [] -> Py.join nl cmds +:+ nl = text_of cmds.
Proof.
  unfold Py.join. induction cmds as [|c cmds IH]; [done |]. intros _.
  destruct cmds as [|c' cmds]; [done |].
  change (String.concat nl (c :: c' :: cmds))
    with (c +:+ nl +:+ String.concat nl (c' :: cmds)).
  rewrite !append_assoc, IH by done. done.
Qed.

Lemma decode_join (cmds : list string) :
  Forall kept cmds -> decode_text (Py.join nl cmds +:+ nl) = cmds.
Proof.
  intros Hkept. destruct cmds as [|c cmds]; [done |].
  rewrite join_text_of by done. by apply decode_text_of.
Qed.

Lemma save_then_read_decode (cmds : list string) (path : string)
    (fs : gmap string string) :
  save_then_read cmds path fs = Ok (decode_text (Py.join nl cmds +:+ nl)).
Proof.
  unfold save_then_read, _save_commands_to_file, _read_commands_from_file.
  cbn [mbind result_bind]. by rewrite lookup_insert_eq.
Qed.

(** A sequence of commands of several lines each is written as the text of
    all their lines. *)
Lemma join_join_text_of (pss : list (list string)) :
  pss <> [] -> Forall (fun ps => ps <> []) pss ->
  Py.join nl (Py.join nl <$> pss) +:+ nl = text_of (concat pss).
Proof.
  intros Hne Hall. induction Hall as [|ps pss Hps _ IH]; [done |].
  destruct pss as [|ps' pss].
  - simpl. rewrite app_nil_r. by apply join_text_of.
  - rewrite fmap_cons. unfold Py.join at 1.
    change (String.concat nl (Py.join nl ps :: (Py.join nl <$> ps' :: pss)))
      with (Py.join nl ps +:+ nl +:+ Py.join nl (Py.join nl <$> ps' :: pss)).
    rewrite !append_assoc, IH by done.
    rewrite <- append_assoc, join_text_of by done.
    by rewrite <- text_of_app.
Qed.

(** C4, as stated, fails on a command of whitespace: [" "] is non-empty and
    holds no line terminator, neither LF nor CR, yet reading the file back
    drops it. *)
Lemma save_then_read_drops_blank :
  Forall (fun c => c <> "" /\ single_line c = true) [" "]
  /\ save_then_read [" "] "rollback.cmds" ∅ = Ok []
  /\ save_then_read [" "] "rollback.cmds" ∅ <> Ok [" "].
Proof.
  split; [by repeat constructor |]. split; [reflexivity |].
  vm_compute. congruence.
Qed.

(** A carriage return inside a command ends a line for the reader too. *)
Example save_then_read_cr :
  save_then_read [String "a" (String Py.CR "b")] "rollback.cmds" ∅
  = Ok ["a"; "b"].
Proof. reflexivity. Qed.

(** C4 (amended): for every sequence of commands in which each command
    holds a character that is not whitespace and holds neither a line feed
    nor a carriage return, reading back the saved file yields the original
    sequence. *)
Theorem save_then_read_roundtrip (cmds : list string) (path : string)
    (fs : gmap string string) :
  Forall (fun c => is_blank c = false /\ single_line c = true) cmds ->
  save_then_read cmds path fs = Ok cmds.
Proof.
  intros Hkept. rewrite save_then_read_decode. f_equal.
  by apply decode_join.
Qed.

Lemma save_then_read_roundtrip_witness :
  save_then_read
    ["interface Loopback3"; "no description"; "no interface Loopback1"]
    "rollback.cmds" ∅
  = Ok ["interface Loopback3"; "no description"; "no interface Loopback1"].
Proof.
  apply (save_then_read_roundtrip
           ["interface Loopback3"; "no description"; "no interface Loopback1"]
           "rollback.cmds" ∅).
  repeat constructor.
Defined.




(** ** The identifier normalizer *)

Lemma startswith_lower (p n : string) :
  Py.startswith (Py.lower n) p =
  String.eqb (Py.lower (String.substring 0 (String.length p) n)) p.
Proof.
  unfold Py.startswith. revert n. induction p as [|a p IH]; intros n.
  - by rewrite prefix_nil, substring_0_0.
  - destruct n as [|b n]; [done |].
    cbn [Py.lower String.length String.substring]. rewrite prefix_cons, IH.
    cbn [String.eqb]. rewrite Ascii.eqb_sym.
    destruct (ascii_dec a (Py.lower_char b)) as [<- | Hne].
    + by rewrite Ascii.eqb_refl.
    + apply Ascii.eqb_neq in Hne. by rewrite Hne.
Qed.

Lemma isdecimal_isdigit_char (c : ascii) :
  Py.isdecimal_char c = true -> Py.isdigit_char c = true.
Proof.
  unfold Py.isdecimal_char, Py.isdigit_char. cbv zeta. by intros ->.
Qed.

Lemma is_decimal_isdigit (s : string) :
  is_decimal s = true -> Py.isdigit s = true.
Proof.
  unfold is_decimal, Py.isdigit. intros H.
  apply andb_true_iff in H as [-> H]. simpl.
  induction s as [|c s IH]; [done |]. simpl in *.
  apply andb_true_iff in H as [Hc H].
  by rewrite (isdecimal_isdigit_char c Hc), IH.
Qed.

Lemma uint_of_char_decimal (c : ascii) (d : Decimal.uint) :
  Py.isdecimal_char c = true -> is_Some (uint_of_char c (Some d)).
Proof.
  destruct c as [[] [] [] [] [] [] [] []]; vm_compute; intros H;
    first [discriminate H | by eexists].
Qed.

Lemma uint_of_char_not_decimal (c : ascii) (d : option Decimal.uint) :
  Py.isdecimal_char c = false -> uint_of_char c d = None.
Proof.
  destruct d as [d|]; [| done].
  destruct c as [[] [] [] [] [] [] [] []]; vm_compute; intros H;
    first [discriminate H | reflexivity].
Qed.

Lemma uint_of_string_decimal (s : string) :
  Py.all_chars Py.isdecimal_char s = true ->
  exists u, NilEmpty.uint_of_string s = Some u.
Proof.
  induction s as [|c s IH]; [by eexists |].
  simpl. intros H. apply andb_true_iff in H as [Hc Hs].
  destruct (IH Hs) as [u ->]. by apply uint_of_char_decimal.
Qed.

Lemma uint_of_string_not_decimal (s : string) :
  Py.all_chars Py.isdecimal_char s = false ->
  NilEmpty.uint_of_string s = None.
Proof.
  induction s as [|c s IH]; [done |].
  simpl. intros H. apply andb_false_iff in H as [Hc | Hs].
  - by apply uint_of_char_not_decimal.
  - by rewrite (IH Hs).
Qed.

Lemma string_of_nzhead (u : Decimal.uint) :
  NilEmpty.string_of_uint (Decimal.nzhead u) =
  drop_zeros (NilEmpty.string_of_uint u).
Proof. induction u; simpl; done. Qed.

Lemma str_of_int_canonical (s : string) (u : Decimal.uint) :
  NilEmpty.uint_of_string s = Some u ->
  Py.str_of_int (N.of_uint u) = canonical_digits s.
Proof.
  intros Hs. apply NilEmpty.sus in Hs as <-.
  unfold Py.str_of_int, canonical_digits.
  rewrite DecimalN.Unsigned.to_of, <- string_of_nzhead.
  unfold Decimal.unorm. by destruct (Decimal.nzhead u).
Qed.

Lemma py_int_decimal (s : string) :
  is_decimal s = true ->
  exists i, py_int s = Ok i /\ Py.str_of_int i = canonical_digits s.
Proof.
  unfold is_decimal, py_int. intros H.
  apply andb_true_iff in H as [Hne Hall].
  destruct s as [|c s]; [done |].
  destruct (uint_of_string_decimal _ Hall) as [u Hu].
  exists (N.of_uint u). cbn [Py.is_empty NilZero.uint_of_string].
  rewrite Hu. split; [done | by apply str_of_int_canonical].
Qed.

Lemma py_int_not_decimal (s : string) :
  is_decimal s = false -> py_int s = Raise ValueError.
Proof.
  unfold is_decimal, py_int. intros H.
  destruct s as [|c s]; [done |].
  cbn [Py.is_empty negb andb NilZero.uint_of_string] in *.
  by rewrite uint_of_string_not_decimal.
Qed.

Lemma lower_l_not_decimal (c : ascii) :
  Ascii.eqb (Py.lower_char c) "l" = true -> Py.isdecimal_char c = false.
Proof.
  destruct c as [[] [] [] [] [] [] [] []]; vm_compute; intros H;
    first [discriminate H | reflexivity].
Qed.

Lemma has_kind_prefix_not_decimal (n : string) :
  has_kind_prefix n = true -> is_decimal n = false.
Proof.
  destruct n as [|c n]; [done |].
  unfold has_kind_prefix, is_decimal.
  cbn [String.substring Py.lower String.eqb Py.is_empty negb andb
       Py.all_chars].
  intros H. destruct (Ascii.eqb (Py.lower_char c) "l") eqn:E; [| done].
  by rewrite (lower_l_not_decimal c E).
Qed.

(** The normalizer in full: a valid identifier gives the canonical key, any
    other raises. *)
Lemma normalize_loopback_spec (raw : string) :
  normalize_loopback raw =
  if valid_identifier (Py.strip raw)
  then Ok ("Loopback" +:+ canonical_digits (digits_of (Py.strip raw)))
  else Raise ValueError.
Proof.
  unfold normalize_loopback, valid_identifier, digits_of. cbv zeta.
  rewrite startswith_lower.
  change (String.length "loopback") with 8.
  fold (has_kind_prefix (Py.strip raw)).
  destruct (has_kind_prefix (Py.strip raw)) eqn:Hk.
  - rewrite (has_kind_prefix_not_decimal _ Hk), orb_false_r, andb_true_l.
    destruct (is_decimal (Py.slice_from 8 (Py.strip raw))) eqn:Hd.
    + rewrite (is_decimal_isdigit _ Hd).
      destruct (py_int_decimal _ Hd) as (i & -> & <-). done.
    + rewrite (py_int_not_decimal _ Hd).
      by destruct (Py.isdigit (Py.slice_from 8 (Py.strip raw))).
  - rewrite andb_false_l, orb_false_l.
    destruct (is_decimal (Py.strip raw)) eqn:Hd.
    + rewrite (is_decimal_isdigit _ Hd).
      destruct (py_int_decimal _ Hd) as (i & -> & <-). done.
    + rewrite (py_int_not_decimal _ Hd).
      by destruct (Py.isdigit (Py.strip raw)).
Qed.

Lemma lower_length (s : string) :
  String.length (Py.lower s) = String.length s.
Proof. induction s as [|c s IH]; simpl; [done | by rewrite IH]. Qed.

Lemma substring_app (p rest : string) :
  String.substring 0 (String.length p) (p +:+ rest) = p.
Proof.
  induction p as [|c p IH]; [apply substring_0_0 |].
  unfold_append. cbn [String.length String.substring]. by rewrite IH.
Qed.

Lemma slice_from_app (p rest : string) :
  Py.slice_from (String.length p) (p +:+ rest) = rest.
Proof. induction p as [|c p IH]; [done | exact IH]. Qed.

Lemma zeros_decimal (k : nat) : Py.all_chars Py.isdecimal_char (zeros k) = true.
Proof. induction k as [|k IH]; [done | exact IH]. Qed.

Lemma is_decimal_padded (k : nat) (d : string) :
  is_decimal d = true -> is_decimal (zeros k +:+ d) = true.
Proof.
  unfold is_decimal. intros H. apply andb_true_iff in H as [Hne Hall].
  rewrite all_chars_app, zeros_decimal, Hall.
  destruct k as [|k]; cbn [zeros]; unfold_append; [by rewrite Hne | done].
Qed.

Lemma drop_zeros_padded (k : nat) (d : string) :
  drop_zeros (zeros k +:+ d) = drop_zeros d.
Proof. induction k as [|k IH]; [done | exact IH]. Qed.

Lemma canonical_digits_padded (k : nat) (d : string) :
  canonical_digits (zeros k +:+ d) = canonical_digits d.
Proof. unfold canonical_digits. by rewrite drop_zeros_padded. Qed.

Lemma drop_zeros_decimal (s : string) :
  Py.all_chars Py.isdecimal_char s = true ->
  Py.all_chars Py.isdecimal_char (drop_zeros s) = true
  /\ Py.startswith (drop_zeros s) "0" = false.
Proof.
  induction s as [|c s IH]; [done |].
  intros H. pose proof H as Hcs. simpl in H.
  apply andb_true_iff in H as [Hc Hs].
  cbn [drop_zeros]. destruct (Ascii.eqb c "0") eqn:E; [by apply IH |].
  split; [done |]. unfold Py.startswith. rewrite prefix_cons.
  destruct (ascii_dec "0" c) as [<- | Hne]; [done | done].
Qed.

(** The canonical digits are a decimal without leading zeros. *)
Lemma canonical_digits_shape (d : string) :
  is_decimal d = true ->
  is_decimal (canonical_digits d) = true
  /\ (canonical_digits d = "0"
      \/ Py.startswith (canonical_digits d) "0" = false).
Proof.
  unfold is_decimal, canonical_digits. intros H.
  apply andb_true_iff in H as [_ Hall].
  destruct (drop_zeros_decimal d Hall) as [Hdec Hlead].
  destruct (drop_zeros d) as [|c r]; [by split; [| left] |].
  split; [done | by right].
Qed.

(** A trimmed identifier made of an optional kind prefix, zero padding and
    digits is valid, and its digits are the padded ones. *)
Lemma variant_valid (p d : string) (k : nat) :
  p = "" \/ Py.lower p = "loopback" ->
  is_decimal d = true ->
  valid_identifier (p +:+ zeros k +:+ d) = true
  /\ digits_of (p +:+ zeros k +:+ d) = zeros k +:+ d.
Proof.
  intros Hp Hd. pose proof (is_decimal_padded k d Hd) as Hpad.
  unfold valid_identifier, digits_of. destruct Hp as [-> | Hp].
  - unfold_append. rewrite Hpad, orb_true_r. split; [done |].
    destruct (has_kind_prefix (zeros k +:+ d)) eqn:Hk; [| done].
    apply has_kind_prefix_not_decimal in Hk. congruence.
  - assert (String.length p = 8) as Hlen.
    { by rewrite <- lower_length, Hp. }
    assert (has_kind_prefix (p +:+ zeros k +:+ d) = true) as ->.
    { unfold has_kind_prefix. rewrite <- Hlen, substring_app, Hp. done. }
    rewrite <- Hlen, slice_from_app, Hpad. done.
Qed.



Example normalize_007 : normalize_loopback "007" = Ok "Loopback7".
Proof. reflexivity. Qed.

Example normalize_7 : normalize_loopback "7" = Ok "Loopback7".
Proof. reflexivity. Qed.

Example normalize_upper : normalize_loopback "LOOPBACK7" = Ok "Loopback7".
Proof. reflexivity. Qed.

Example normalize_padded : normalize_loopback "Loopback007" = Ok "Loopback7".
Proof. reflexivity. Qed.

Example normalize_zero : normalize_loopback "loopback000" = Ok "Loopback0".
Proof. reflexivity. Qed.

Lemma substring_slice (k : nat) (n : string) :
  n = String.substring 0 k n +:+ Py.slice_from k n.
Proof.
  revert n. induction k as [|k IH]; intros n.
  - by rewrite substring_0_0.
  - destruct n as [|c n]; [done |].
    cbn [String.substring Py.slice_from]. unfold_append. f_equal. apply IH.
Qed.

(** [valid_identifier] says what its words say: the identifier splits into
    a kind prefix in some case and a decimal integer, or is a decimal
    integer. *)
Lemma valid_identifier_iff (n : string) :
  valid_identifier n = true <->
  (exists p d, n = p +:+ d /\ Py.lower p = "loopback"
               /\ is_decimal d = true)
  \/ is_decimal n = true.
Proof.
  unfold valid_identifier. rewrite orb_true_iff, andb_true_iff. split.
  - intros [[Hk Hd] | Hn]; [left | by right].
    exists (String.substring 0 8 n), (Py.slice_from 8 n).
    split; [apply substring_slice |]. split; [| done].
    by apply String.eqb_eq.
  - intros [(p & d & -> & Hp & Hd) | Hn]; [left | by right].
    assert (String.length p = 8) as Hlen by by rewrite <- lower_length, Hp.
    unfold has_kind_prefix.
    rewrite <- Hlen, substring_app, slice_from_app, Hp. done.
Qed.

(** C8: a raw identifier that, once trimmed, is neither the kind prefix
    followed by a non-negative integer nor a bare non-negative integer is
    refused with [ValueError]. *)
Theorem normalize_loopback_invalid (raw : string) :
  valid_identifier (Py.strip raw) = false ->
  normalize_loopback raw = Raise ValueError.
Proof.
  intros H. by rewrite normalize_loopback_spec, H.
Qed.

Lemma normalize_loopback_invalid_witness :
  normalize_loopback "Loopback1a" = Raise ValueError.
Proof.
  apply (normalize_loopback_invalid "Loopback1a"). reflexivity.
Defined.

Example normalize_no_suffix : normalize_loopback "Loopback" = Raise ValueError.
Proof. reflexivity. Qed.

Example normalize_letters : normalize_loopback "abc" = Raise ValueError.
Proof. reflexivity. Qed.

Example normalize_negative : normalize_loopback "-1" = Raise ValueError.
Proof. reflexivity. Qed.

Example normalize_blank : normalize_loopback "  " = Raise ValueError.
Proof. reflexivity. Qed.

(** A superscript digit passes [isdigit] and is then refused by [int]. *)
Example normalize_superscript :
  normalize_loopback ("Loopback" +:+ String (ascii_of_N 178) "")
  = Raise ValueError.
Proof. reflexivity. Qed.

(** * Further properties of the program *)

(** ** More on the identifier normalizer *)

(** The normalizer raises nothing but [ValueError]. *)
Lemma normalize_loopback_Raise (raw : string) (e : exn) :
  normalize_loopback raw = Raise e -> e = ValueError.
Proof.
  rewrite normalize_loopback_spec.
  destruct (valid_identifier (Py.strip raw)); [done | by intros [= <-]].
Qed.

Lemma digits_of_decimal (n : string) :
  valid_identifier n = true -> is_decimal (digits_of n) = true.
Proof.
  unfold valid_identifier, digits_of. intros H.
  destruct (has_kind_prefix n) eqn:Hk.
  - rewrite (has_kind_prefix_not_decimal n Hk), orb_false_r in H.
    by apply andb_true_iff in H as [_ H].
  - by rewrite andb_false_l, orb_false_l in H.
Qed.

Lemma normalize_loopback_Ok (raw key : string) :
  normalize_loopback raw = Ok key ->
  valid_identifier (Py.strip raw) = true
  /\ key = "Loopback" +:+ canonical_digits (digits_of (Py.strip raw)).
Proof.
  rewrite normalize_loopback_spec.
  destruct (valid_identifier (Py.strip raw)); [| done].
  by intros [= <-].
Qed.

(** A key is returned for the valid identifiers only, and it is
    ["Loopback"] followed by a decimal integer without leading zeros. *)
Theorem normalize_loopback_key (raw key : string) :
  normalize_loopback raw = Ok key ->
  valid_identifier (Py.strip raw) = true
  /\ exists d, key = "Loopback" +:+ d
               /\ is_decimal d = true
               /\ (d = "0" \/ Py.startswith d "0" = false).
Proof.
  intros H. apply normalize_loopback_Ok in H as [Hv ->]. split; [done |].
  exists (canonical_digits (digits_of (Py.strip raw))). split; [done |].
  by apply canonical_digits_shape, digits_of_decimal.
Qed.

Lemma normalize_loopback_key_witness :
  valid_identifier (Py.strip " loopback0042 ") = true
  /\ exists d, "Loopback42" = "Loopback" +:+ d
               /\ is_decimal d = true
               /\ (d = "0" \/ Py.startswith d "0" = false).
Proof.
  apply (normalize_loopback_key " loopback0042 " "Loopback42"). reflexivity.
Defined.

Lemma decimal_not_space (c : ascii) :
  Py.isdecimal_char c = true -> Py.isspace c = false.
Proof.
  destruct c as [[] [] [] [] [] [] [] []]; vm_compute; intros H;
    first [discriminate H | reflexivity].
Qed.

Lemma lower_loopback_not_space (c : ascii) (r : string) :
  Py.startswith (Py.lower (String c r)) "loopback" = true ->
  Py.isspace c = false.
Proof.
  unfold Py.startswith. cbn [Py.lower]. rewrite prefix_cons.
  destruct (ascii_dec "l" (Py.lower_char c)) as [Hl | ?]; [| done].
  intros _. revert Hl.
  destruct c as [[] [] [] [] [] [] [] []]; vm_compute; intros H;
    first [discriminate H | reflexivity].
Qed.

(** A string that neither starts nor ends with whitespace is left as it is
    by [strip]. *)
Lemma rstrip_decimal (s : string) :
  Py.all_chars Py.isdecimal_char s = true -> Py.rstrip s = s.
Proof.
  induction s as [|c s IH]; [done |]. simpl. intros H.
  apply andb_true_iff in H as [Hc Hs].
  by rewrite (IH Hs), (decimal_not_space c Hc), andb_false_r.
Qed.

Lemma rstrip_app_fixed (p s : string) :
  s <> "" -> Py.rstrip s = s -> Py.rstrip (p +:+ s) = p +:+ s.
Proof.
  intros Hne Hs. induction p as [|c p IH]; [done |].
  unfold_append. cbn [Py.rstrip]. cbv zeta. rewrite IH.
  destruct (p +:+ s) eqn:E; [| done].
  destruct p; [| done]. by rewrite append_nil_l in E.
Qed.

Lemma canonical_digits_fixed (d : string) :
  is_decimal d = true ->
  d = "0" \/ Py.startswith d "0" = false ->
  canonical_digits d = d.
Proof.
  intros Hd [-> | Hlead]; [done |].
  destruct d as [|c d]; [done |].
  unfold Py.startswith in Hlead. rewrite prefix_cons in Hlead.
  unfold canonical_digits. cbn [drop_zeros].
  destruct (ascii_dec "0" c) as [<- | Hne].
  - by rewrite prefix_nil in Hlead.
  - rewrite Ascii.eqb_sym. apply Ascii.eqb_neq in Hne. by rewrite Hne.
Qed.

(** A key is a fixed point of the normalizer. *)
Theorem normalize_loopback_idempotent (raw key : string) :
  normalize_loopback raw = Ok key -> normalize_loopback key = Ok key.
Proof.
  intros H. apply normalize_loopback_Ok in H as [Hv ->].
  pose proof (digits_of_decimal _ Hv) as Hdig0.
  destruct (canonical_digits_shape _ Hdig0) as [Hd Hlead].
  set (d := canonical_digits (digits_of (Py.strip raw))) in *.
  clearbody d. clear Hv Hdig0.
  assert (Py.strip ("Loopback" +:+ d) = "Loopback" +:+ d) as Hstrip.
  { unfold Py.strip. rewrite rstrip_app_fixed.
    - reflexivity.
    - intros ->. discriminate Hd.
    - apply rstrip_decimal. by apply andb_true_iff in Hd as [_ ?]. }
  destruct (variant_valid "Loopback" d 0 (or_intror eq_refl) Hd) as [Hv Hdig].
  change (zeros 0 +:+ d) with d in *.
  rewrite normalize_loopback_spec, Hstrip, Hv, Hdig.
  by rewrite canonical_digits_fixed.
Qed.

Lemma normalize_loopback_idempotent_witness :
  normalize_loopback "Loopback7" = Ok "Loopback7".
Proof.
  apply (normalize_loopback_idempotent "007" "Loopback7"). reflexivity.
Defined.

Lemma rstrip_app_spaces (s b : string) :
  Py.all_chars Py.isspace b = true -> Py.rstrip (s +:+ b) = Py.rstrip s.
Proof.
  revert s. induction b as [|x b IH]; intros s H.
  - by rewrite append_nil_r.
  - simpl in H. apply andb_true_iff in H as [Hx Hb].
    replace (s +:+ String x b) with ((s +:+ String x "") +:+ b)
      by (by rewrite append_assoc).
    rewrite (IH _ Hb). by apply rstrip_app_space.
Qed.

Lemma rstrip_spaces_app (a t : string) :
  Py.all_chars Py.isspace a = true ->
  Py.rstrip (a +:+ t) =
  if Py.is_empty (Py.rstrip t) then "" else a +:+ Py.rstrip t.
Proof.
  induction a as [|c a IH]; intros H.
  - rewrite !append_nil_l. by destruct (Py.rstrip t).
  - simpl in H. apply andb_true_iff in H as [Hc Ha].
    unfold_append. cbn [Py.rstrip]. cbv zeta. rewrite (IH Ha), Hc.
    destruct (Py.rstrip t) as [|y u] eqn:E; [done |].
    cbn [Py.is_empty]. by destruct a.
Qed.

Lemma lstrip_spaces_app (a u : string) :
  Py.all_chars Py.isspace a = true -> Py.lstrip (a +:+ u) = Py.lstrip u.
Proof.
  induction a as [|c a IH]; intros H; [done |].
  simpl in H. apply andb_true_iff in H as [Hc Ha].
  unfold_append. cbn [Py.lstrip]. rewrite Hc. by apply IH.
Qed.

Lemma strip_padding (a s b : string) :
  Py.all_chars Py.isspace a = true ->
  Py.all_chars Py.isspace b = true ->
  Py.strip (a +:+ s +:+ b) = Py.strip s.
Proof.
  intros Ha Hb. unfold Py.strip.
  rewrite (rstrip_spaces_app a _ Ha), (rstrip_app_spaces s b Hb).
  destruct (Py.rstrip s) as [|y u]; [done |].
  by apply lstrip_spaces_app.
Qed.

(** Whitespace around an identifier does not count. *)
Theorem normalize_loopback_padding (a raw b : string) :
  Py.all_chars Py.isspace a = true ->
  Py.all_chars Py.isspace b = true ->
  normalize_loopback (a +:+ raw +:+ b) = normalize_loopback raw.
Proof.
  intros Ha Hb.
  by rewrite !normalize_loopback_spec, (strip_padding a raw b Ha Hb).
Qed.

Lemma normalize_loopback_padding_witness :
  normalize_loopback ("  " +:+ "Loopback12" +:+ String Py.LF "")
  = normalize_loopback "Loopback12".
Proof.
  apply (normalize_loopback_padding "  " "Loopback12" (String Py.LF ""));
    reflexivity.
Defined.

Lemma to_uint_nonnil (i : N) : N.to_uint i <> Decimal.Nil.
Proof.
  rewrite <- (DecimalN.Unsigned.of_to i), DecimalN.Unsigned.to_of.
  apply DecimalFacts.unorm_nonnil.
Qed.

Lemma str_of_int_inj (i j : N) :
  Py.str_of_int i = Py.str_of_int j -> i = j.
Proof.
  unfold Py.str_of_int. intros H.
  apply (f_equal NilZero.uint_of_string) in H.
  rewrite !NilZero.usu in H by apply to_uint_nonnil.
  injection H as H. by apply DecimalN.Unsigned.to_uint_inj.
Qed.

(** Two identifiers get the same key exactly when their integers are
    equal. *)
Theorem normalize_loopback_same_key (raw1 raw2 key1 key2 : string) :
  normalize_loopback raw1 = Ok key1 ->
  normalize_loopback raw2 = Ok key2 ->
  key1 = key2 <-> identifier_number raw1 = identifier_number raw2.
Proof.
  rewrite !normalize_loopback_spec. unfold identifier_number.
  destruct (valid_identifier (Py.strip raw1)) eqn:Hv1; [| done].
  destruct (valid_identifier (Py.strip raw2)) eqn:Hv2; [| done].
  intros [= <-] [= <-].
  destruct (py_int_decimal _ (digits_of_decimal _ Hv1)) as (i & -> & <-).
  destruct (py_int_decimal _ (digits_of_decimal _ Hv2)) as (j & -> & <-).
  split.
  - intros H. apply (inj (String.app "Loopback")) in H.
    by rewrite (str_of_int_inj i j H).
  - by intros [= ->].
Qed.

Lemma normalize_loopback_same_key_witness :
  "Loopback7" = "Loopback7" <->
  identifier_number "007" = identifier_number "LOOPBACK7".
Proof.
  apply (normalize_loopback_same_key "007" "LOOPBACK7"
           "Loopback7" "Loopback7"); reflexivity.
Defined.

(** ** The rows of the CSV file *)

Lemma forallb_Forall_true {A : Type} (f : A -> bool) (l : list A) :
  forallb f l = true <-> Forall (fun x => f x = true) l.
Proof.
  induction l as [|x l IH]; simpl; [by split; [constructor |] |].
  rewrite andb_true_iff, Forall_cons, IH. done.
Qed.

Lemma parse_rows_loop_cons (pairs : list (string * string)) (row : csv_row)
    (rest : list csv_row) :
  parse_rows_loop pairs (row :: rest) =
  if row_ok row then parse_rows_loop (pairs ++ [row_pair row]) rest
  else Raise ValueError.
Proof.
  cbn [parse_rows_loop]. unfold row_ok, row_pair, is_blank, Py.truthy.
  rewrite normalize_loopback_spec.
  destruct (valid_identifier (Py.strip (row_loopback row))); [| done].
  cbn [mbind result_bind andb].
  by destruct (Py.is_empty (Py.strip (or_empty (row_description row)))).
Qed.

Lemma parse_rows_loop_spec (pairs : list (string * string))
    (rows : list csv_row) :
  parse_rows_loop pairs rows =
  if forallb row_ok rows then Ok (pairs ++ (row_pair <$> rows))
  else Raise ValueError.
Proof.
  revert pairs. induction rows as [|row rest IH]; intros pairs.
  - simpl. by rewrite app_nil_r.
  - rewrite parse_rows_loop_cons. cbn [forallb].
    destruct (row_ok row); [| done]. rewrite IH, fmap_cons.
    destruct (forallb row_ok rest); [| done].
    by rewrite <- (assoc_L (++)).
Qed.

Lemma parse_csv_pairs_spec (rows : list csv_row) :
  parse_csv_pairs rows =
  match rows with
  | [] => Raise ValueError
  | _ :: _ =>
      if forallb row_ok rows then Ok (row_pair <$> rows)
      else Raise ValueError
  end.
Proof.
  unfold parse_csv_pairs. rewrite parse_rows_loop_spec.
  destruct rows as [|row rest]; [done |].
  by destruct (forallb row_ok (row :: rest)).
Qed.


(** The pairs returned follow the rows, one for one and in order: the key
    of the row's identifier, and the row's description trimmed, which is
    never empty. *)
Theorem parse_csv_pairs_rows (rows : list csv_row)
    (pairs : list (string * string)) :
  parse_csv_pairs rows = Ok pairs ->
  pairs <> []
  /\ length pairs = length rows
  /\ Forall2
       (fun row pair =>
          normalize_loopback (row_loopback row) = Ok pair.1
          /\ pair.2 = Py.strip (or_empty (row_description row))
          /\ pair.2 <> "")
       rows pairs.
Proof.
  rewrite parse_csv_pairs_spec. destruct rows as [|row rest]; [done |].
  destruct (forallb row_ok (row :: rest)) eqn:E; [| done].
  intros H.
  assert (pairs = row_pair <$> row :: rest) as -> by congruence. clear H.
  split; [done |]. split; [by rewrite length_fmap |].
  apply Forall2_fmap_r, Forall_Forall2_diag.
  apply forallb_Forall_true in E. eapply Forall_impl; [exact E |].
  intros r Hr. unfold row_ok in Hr.
  apply andb_true_iff in Hr as [Hv Hb]. unfold row_pair. cbn [fst snd].
  split; [by rewrite normalize_loopback_spec, Hv |]. split; [done |].
  unfold is_blank in Hb.
  by destruct (Py.strip (or_empty (row_description r))).
Qed.

Lemma parse_csv_pairs_rows_witness :
  [("Loopback100", "Mgmt"); ("Loopback7", "Anycast VIP")] <> []
  /\ length [("Loopback100", "Mgmt"); ("Loopback7", "Anycast VIP")]
     = length [CsvRow "100" (Some " Mgmt");
               CsvRow "loopback007" (Some "Anycast VIP ")]
  /\ Forall2
       (fun row pair =>
          normalize_loopback (row_loopback row) = Ok pair.1
          /\ pair.2 = Py.strip (or_empty (row_description row))
          /\ pair.2 <> "")
       [CsvRow "100" (Some " Mgmt");
        CsvRow "loopback007" (Some "Anycast VIP ")]
       [("Loopback100", "Mgmt"); ("Loopback7", "Anycast VIP")].
Proof.
  apply (parse_csv_pairs_rows
           [CsvRow "100" (Some " Mgmt");
            CsvRow "loopback007" (Some "Anycast VIP ")]
           [("Loopback100", "Mgmt"); ("Loopback7", "Anycast VIP")]).
  reflexivity.
Defined.

(** ** The change planner *)

Lemma build_commands_bulk_acc (pairs : list (string * string))
    (cmds : list string) :
  fold_left
    (fun cmds '(lb, desc) =>
       cmds ++ ["interface " +:+ lb; "description " +:+ desc])
    pairs cmds
  = cmds ++ concat (change_commands <$> pairs).
Proof.
  revert cmds. induction pairs as [|[lb desc] rest IH]; intros cmds.
  - simpl. by rewrite app_nil_r.
  - cbn [fold_left]. rewrite IH, fmap_cons. cbn [concat].
    by rewrite <- (assoc_L (++)).
Qed.

(** The planned commands are the two commands of each change, in batch
    order: a batch of N changes gives 2N commands, and the plan of two
    batches in a row is the two plans in a row. *)
Theorem build_commands_bulk_blocks (pairs more : list (string * string)) :
  build_commands_bulk pairs = concat (change_commands <$> pairs)
  /\ length (build_commands_bulk pairs) = 2 * length pairs
  /\ build_commands_bulk (pairs ++ more)
     = build_commands_bulk pairs ++ build_commands_bulk more.
Proof.
  unfold build_commands_bulk. rewrite !build_commands_bulk_acc.
  cbn [app]. split; [done |]. split.
  - induction pairs as [|c rest IH]; [done |].
    rewrite fmap_cons. cbn [concat change_commands app length].
    rewrite IH. lia.
  - by rewrite fmap_app, concat_app.
Qed.

(** ** More on the state prober *)

Lemma all_chars_impl (p q : ascii -> bool) (s : string) :
  (forall c, p c = true -> q c = true) ->
  Py.all_chars p s = true -> Py.all_chars q s = true.
Proof.
  intros Hpq. induction s as [|c s IH]; [done |]. simpl. intros H.
  apply andb_true_iff in H as [Hc Hs]. by rewrite (Hpq c Hc), IH.
Qed.

Lemma all_chars_lstrip (p : ascii -> bool) (s : string) :
  Py.all_chars p s = true -> Py.all_chars p (Py.lstrip s) = true.
Proof.
  induction s as [|c s IH]; [done |]. intros H. cbn [Py.lstrip].
  destruct (Py.isspace c); [| done].
  simpl in H. apply andb_true_iff in H as [_ Hs]. by apply IH.
Qed.

Lemma all_chars_rstrip (p : ascii -> bool) (s : string) :
  Py.all_chars p s = true -> Py.all_chars p (Py.rstrip s) = true.
Proof.
  induction s as [|c s IH]; [done |]. simpl. intros H.
  apply andb_true_iff in H as [Hc Hs].
  destruct (Py.is_empty (Py.rstrip s) && Py.isspace c); [done |].
  simpl. by rewrite Hc, IH.
Qed.

Lemma all_chars_strip (p : ascii -> bool) (s : string) :
  Py.all_chars p s = true -> Py.all_chars p (Py.strip s) = true.
Proof. intros H. by apply all_chars_lstrip, all_chars_rstrip. Qed.

Lemma all_chars_slice_from (p : ascii -> bool) (n : nat) (s : string) :
  Py.all_chars p s = true -> Py.all_chars p (Py.slice_from n s) = true.
Proof.
  revert s. induction n as [|n IH]; intros s H; [done |].
  destruct s as [|c s]; [done |]. simpl in H.
  apply andb_true_iff in H as [_ Hs]. by apply IH.
Qed.

(** No line of [splitlines] holds a line boundary. *)
Lemma splitlines_no_linebreak (s : string) :
  Forall (fun ln => no_linebreak ln = true) (Py.splitlines s).
Proof.
  assert (Forall (fun ln => no_linebreak ln = true) (Py.splitlines s)
          /\ match s with
             | String _ r =>
                 Forall (fun ln => no_linebreak ln = true) (Py.splitlines r)
             | EmptyString => True
             end) as [H _]; [| done].
  induction s as [|c r [IHr IHt]]; [by split; [constructor |] |].
  split; [| done]. cbn [Py.splitlines].
  destruct (Py.is_linebreak c) eqn:Hc.
  - constructor; [done |]. destruct r as [|c' r']; [done |].
    by destruct (Ascii.eqb c Py.CR && Ascii.eqb c' Py.LF).
  - destruct (Py.splitlines r) as [|l ls].
    + constructor; [| done]. unfold no_linebreak. simpl. by rewrite Hc.
    + apply Forall_cons in IHr as [Hl Hls]. constructor; [| done].
      unfold no_linebreak in *. simpl. by rewrite Hc, Hl.
Qed.

Lemma strip_strip (s : string) : Py.strip (Py.strip s) = Py.strip s.
Proof.
  unfold Py.strip.
  by rewrite (rstrip_fixed_lstrip _ (rstrip_idemp s)), lstrip_idemp.
Qed.

(** The snapshot, read off the non-blank lines of the answer. *)
Lemma get_interface_state_lines (conn : string -> string)
    (loopback : string) :
  get_interface_state conn loopback =
  match nonblank_lines (probe_text conn loopback) with
  | l0 :: rest =>
      if Py.startswith (Py.rstrip l0) "interface "
      then State true (last_description (Py.strip <$> rest))
                 (Py.strip <$> rest)
      else State false None []
  | [] => State false None []
  end.
Proof.
  unfold get_interface_state, nonblank_lines, probe_text. cbv zeta.
  destruct (filter _ _) as [|l0 rest]; [done |].
  rewrite fmap_cons. destruct (Py.startswith (Py.rstrip l0) "interface ");
    [| done].
  rewrite fold_probe_step. cbn [app].
  rewrite <- list_fmap_compose.
  change (Py.lstrip ∘ Py.rstrip) with Py.strip.
  by destruct (last_description (Py.strip <$> rest)).
Qed.

Lemma nonblank_lines_Forall (text : string) :
  Forall (fun ln => Py.strip ln <> "" /\ no_linebreak ln = true)
         (nonblank_lines text).
Proof.
  unfold nonblank_lines. apply Forall_forall. intros ln Hin.
  apply list_elem_of_filter in Hin as [Hne Hin]. split.
  - intros E. by rewrite E in Hne.
  - pose proof (splitlines_no_linebreak text) as H.
    rewrite Forall_forall in H. by apply H.
Qed.

Lemma get_interface_state_lines_shape (conn : string -> string)
    (loopback : string) :
  Forall (fun ln => ln <> "" /\ Py.strip ln = ln /\ no_linebreak ln = true)
         (lines (get_interface_state conn loopback)).
Proof.
  rewrite get_interface_state_lines.
  pose proof (nonblank_lines_Forall (probe_text conn loopback)) as H.
  destruct (nonblank_lines _) as [|l0 rest]; [constructor |].
  destruct (Py.startswith (Py.rstrip l0) "interface "); [| constructor].
  cbn [lines]. apply Forall_cons in H as [_ H].
  apply Forall_fmap. eapply Forall_impl; [exact H |].
  intros ln [Hne Hlb]. simpl. split; [done |]. split; [apply strip_strip |].
  by apply all_chars_strip.
Qed.

(** Every sub-line of a snapshot is non-empty, neither starts nor ends
    with whitespace, and holds no line boundary; its number is the number
    of non-blank lines of the answer after the first. *)
Theorem get_interface_state_sub_lines (conn : string -> string)
    (loopback : string) :
  Forall (fun ln => ln <> "" /\ Py.strip ln = ln /\ no_linebreak ln = true)
         (lines (get_interface_state conn loopback))
  /\ length (lines (get_interface_state conn loopback))
     = if exists_ (get_interface_state conn loopback)
       then Nat.pred (length (nonblank_lines (probe_text conn loopback)))
       else 0.
Proof.
  split; [apply get_interface_state_lines_shape |].
  rewrite get_interface_state_lines.
  destruct (nonblank_lines _) as [|l0 rest]; [done |].
  destruct (Py.startswith (Py.rstrip l0) "interface "); [| done].
  cbn [lines exists_ length Nat.pred]. by rewrite length_fmap.
Qed.

Lemma linebreak_single_line (s : string) :
  no_linebreak s = true -> single_line s = true.
Proof.
  apply all_chars_impl. intros c.
  destruct c as [[] [] [] [] [] [] [] []]; vm_compute; intros H;
    first [discriminate H | reflexivity].
Qed.

Lemma get_interface_state_description_single_line
    (conn : string -> string) (loopback d : string) :
  description (get_interface_state conn loopback) = Some d ->
  single_line d = true.
Proof.
  rewrite get_interface_state_description. unfold last_description.
  destruct (last (filter _ _)) as [ln|] eqn:Hlast; [| done].
  intros [= <-].
  apply last_Some_elem_of, list_elem_of_filter in Hlast as [_ Hin].
  pose proof (get_interface_state_lines_shape conn loopback) as H.
  rewrite Forall_forall in H. destruct (H ln Hin) as (_ & _ & Hlb).
  apply linebreak_single_line. unfold description_value.
  by apply all_chars_strip, all_chars_slice_from.
Qed.

(** An attribute value the prober reports is never empty, neither starts
    nor ends with whitespace, and fits on one line. *)
Theorem get_interface_state_description_shape (conn : string -> string)
    (loopback d : string) :
  description (get_interface_state conn loopback) = Some d ->
  d <> "" /\ Py.strip d = d /\ single_line d = true.
Proof.
  intros Hd. split; [| split].
  - intros ->. by apply (get_interface_state_description_nonempty
                           conn loopback).
  - rewrite get_interface_state_description in Hd.
    unfold last_description in Hd.
    destruct (last (filter _ _)) as [ln|]; [| done].
    injection Hd as <-. apply strip_strip.
  - by apply (get_interface_state_description_single_line conn loopback).
Qed.

Lemma get_interface_state_description_shape_witness :
  "B" <> "" /\ Py.strip "B" = "B" /\ single_line "B" = true.
Proof.
  apply (get_interface_state_description_shape two_descriptions
           "Loopback1" "B").
  reflexivity.
Defined.

(** The attribute value is present exactly when some sub-line is a
    description line. *)
Theorem get_interface_state_description_present (conn : string -> string)
    (loopback : string) :
  is_Some (description (get_interface_state conn loopback)) <->
  Exists (fun ln => is_description_line ln = true)
         (lines (get_interface_state conn loopback)).
Proof.
  rewrite get_interface_state_description. unfold last_description.
  rewrite fmap_is_Some, Exists_exists. split.
  - intros [ln Hlast].
    apply last_Some_elem_of, list_elem_of_filter in Hlast as [Hd Hin].
    by exists ln.
  - intros (ln & Hin & Hd).
    destruct (last (filter _ _)) as [x|] eqn:Hlast; [by eexists |].
    apply last_None in Hlast.
    assert (ln ∈ filter (fun ln => is_description_line ln = true)
                   (lines (get_interface_state conn loopback))) as Hf
      by by apply list_elem_of_filter.
    rewrite Hlast in Hf. by apply elem_of_nil in Hf.
Qed.

(** For a snapshot of the prober, the stanza is classified trivial exactly
    when every sub-line is a description line. *)
Theorem get_interface_state_trivial (conn : string -> string)
    (loopback : string) :
  is_empty_loopback (lines (get_interface_state conn loopback)) = true <->
  Forall (fun ln => is_description_line ln = true)
         (lines (get_interface_state conn loopback)).
Proof.
  rewrite is_empty_loopback_Forall.
  pose proof (get_interface_state_lines_shape conn loopback) as H.
  induction H as [|ln rest (Hne & _) _ IH]; [done |].
  rewrite !Forall_cons, IH. split; [| by intros [? ?]; split; [right |]].
  by intros [[? | ?] ?].
Qed.

(** ** More on the rollback synthesizer *)

Lemma generate_rollback_Ok_covered (m : gmap string state) (flag : bool)
    (pairs : list (string * string)) (plan : list string) :
  generate_rollback_for_pairs m pairs flag = Ok plan ->
  Forall (fun c => is_Some (m !! c.1)) pairs.
Proof.
  revert plan. induction pairs as [|[lb new] rest IH]; intros plan;
    [constructor |].
  rewrite generate_rollback_cons.
  destruct (m !! lb) as [st|] eqn:Hlb; [| done].
  destruct (generate_rollback_for_pairs m rest flag) as [p|]; [| done].
  intros _. constructor; [by exists st | by eapply IH].
Qed.

(** The synthesis fails exactly when some change has no snapshot, and then
    with [KeyError]. *)
Theorem generate_rollback_KeyError (m : gmap string state) (flag : bool)
    (pairs : list (string * string)) :
  ((exists e, generate_rollback_for_pairs m pairs flag = Raise e) <->
   Exists (fun c => m !! c.1 = None) pairs)
  /\ (forall e, generate_rollback_for_pairs m pairs flag = Raise e ->
                e = KeyError).
Proof.
  induction pairs as [|[lb new] rest [IH1 IH2]].
  - split; [| done]. split; [by intros [? ?] | by intros ?%Exists_nil].
  - rewrite generate_rollback_cons, Exists_cons. cbn [fst].
    destruct (m !! lb) as [st|]; [| split; [| by intros e [= <-]]].
    + destruct (generate_rollback_for_pairs m rest flag) as [p|e0].
      * split; [| done]. split; [by intros [? ?] |].
        intros [? | H]; [done |]. apply IH1 in H as [? ?]. done.
      * split; [| intros e [= <-]; by apply IH2].
        split; [| by eexists]. intros _. right. apply IH1. by eexists.
    + split; [by left | by eexists].
Qed.

Lemma rule_block_length (st : state) (lb : string) (flag : bool) :
  1 <= length (rule_block st lb flag) <= 2.
Proof.
  unfold rule_block. destruct (negb (exists_ st)); [simpl; lia |].
  destruct (flag && is_empty_loopback (lines st)); simpl; lia.
Qed.

(** A plan for N changes holds N commands at least and 2N at most. *)
Theorem generate_rollback_length (m : gmap string state) (flag : bool)
    (pairs : list (string * string)) (plan : list string) :
  generate_rollback_for_pairs m pairs flag = Ok plan ->
  length pairs <= length plan <= 2 * length pairs.
Proof.
  intros Hplan. pose proof (generate_rollback_Ok_covered _ _ _ _ Hplan) as Hc.
  destruct (generate_rollback_blocks m flag pairs Hc) as (blocks & Hb & Hall).
  rewrite Hb in Hplan. injection Hplan as <-. clear Hb Hc.
  induction Hall as [|c block rest blocks (st & _ & ->) _ IH]; [simpl; lia |].
  cbn [concat]. rewrite length_app. cbn [length].
  pose proof (rule_block_length st c.1 flag). lia.
Qed.

Lemma generate_rollback_length_witness :
  length example_batch
  <= length ["interface Loopback3"; "no description";
             "no interface Loopback1"; "no interface Loopback2"]
  <= 2 * length example_batch.
Proof.
  apply (generate_rollback_length (list_to_map example_items) true
           example_batch).
  reflexivity.
Defined.

(** The plan depends on the entities of the batch and on their snapshots
    only: neither on the new descriptions nor on the rest of the
    dictionary. *)
Theorem generate_rollback_local (m m' : gmap string state) (flag : bool)
    (pairs pairs' : list (string * string)) :
  pairs.*1 = pairs'.*1 ->
  (forall lb, lb ∈ pairs.*1 -> m !! lb = m' !! lb) ->
  generate_rollback_for_pairs m pairs flag
  = generate_rollback_for_pairs m' pairs' flag.
Proof.
  revert pairs'. induction pairs as [|[lb new] rest IH];
    intros [|[lb' new'] rest'] Hkeys Hm; try done.
  rewrite !fmap_cons in Hkeys. cbn [fst] in Hkeys.
  assert (lb' = lb) as -> by congruence.
  assert (rest.*1 = rest'.*1) as Hrest by congruence. clear Hkeys.
  rewrite !generate_rollback_cons, <- (Hm lb) by (rewrite fmap_cons; left).
  destruct (m !! lb) as [st|]; [| done].
  rewrite (IH rest' Hrest); [done |].
  intros k Hk. apply Hm. rewrite fmap_cons. by right.
Qed.

Lemma generate_rollback_local_witness :
  generate_rollback_for_pairs (list_to_map example_items)
    [("Loopback3", "c"); ("Loopback1", "a")] true
  = generate_rollback_for_pairs
      (delete "Loopback2" (list_to_map example_items))
      [("Loopback3", "x"); ("Loopback1", "y")] true.
Proof.
  apply (generate_rollback_local (list_to_map example_items)
           (delete "Loopback2" (list_to_map example_items)) true
           [("Loopback3", "c"); ("Loopback1", "a")]
           [("Loopback3", "x"); ("Loopback1", "y")]).
  - reflexivity.
  - intros lb Hlb. rewrite lookup_delete_ne; [done |].
    intros <-. revert Hlb. apply (bool_decide_unpack _). by vm_compute.
Defined.

Lemma generate_rollback_from (m : gmap string state) (flag : bool)
    (snapshot : string -> state) (pairs : list (string * string)) :
  Forall (fun c => m !! c.1 = Some (snapshot c.1)) pairs ->
  generate_rollback_for_pairs m pairs flag
  = Ok (concat ((fun c => rule_block (snapshot c.1) c.1 flag) <$> pairs)).
Proof.
  induction 1 as [|[lb new] rest Hlb _ IH]; [done |].
  cbn [fst] in Hlb. by rewrite generate_rollback_cons, Hlb, IH.
Qed.

Lemma probe_targets_snapshots (conn : string -> string)
    (pairs : list (string * string)) :
  Forall (fun c => probe_targets conn pairs !! c.1
                   = Some (get_interface_state conn c.1)) pairs.
Proof.
  apply Forall_forall. intros [lb d] Hin.
  apply probe_targets_lookup. cbn [fst].
  apply list_elem_of_fmap. by exists (lb, d).
Qed.


Lemma rule_block_destroy (st : state) (lb target : string) (flag : bool) :
  "no interface " +:+ target ∈ rule_block st lb flag ->
  target = lb
  /\ (exists_ st = false
      \/ flag = true /\ is_empty_loopback (lines st) = true).
Proof.
  unfold rule_block. destruct (exists_ st); cbn [negb].
  - destruct flag, (is_empty_loopback (lines st)); cbn [andb];
      intros H; repeat (apply elem_of_cons in H as [H | H]);
      try (by apply elem_of_nil in H).
    + apply (inj (String.app "no interface ")) in H. by split; [| right].
    + exfalso. by vm_compute in H.
    + exfalso. destruct (description st) as [[|c r]|]; by vm_compute in H.
    + exfalso. by vm_compute in H.
    + exfalso. destruct (description st) as [[|c r]|]; by vm_compute in H.
    + exfalso. by vm_compute in H.
    + exfalso. destruct (description st) as [[|c r]|]; by vm_compute in H.
  - intros H. apply list_elem_of_singleton in H.
    apply (inj (String.app "no interface ")) in H. by split; [| left].
Qed.

(** The plan destroys an entity only when its snapshot says that it did
    not exist, or when deleting is allowed and its stanza was trivial: with
    the flag off, an entity that existed is never destroyed. *)
Theorem generate_rollback_destroy (m : gmap string state) (flag : bool)
    (pairs : list (string * string)) (plan : list string)
    (target : string) :
  generate_rollback_for_pairs m pairs flag = Ok plan ->
  "no interface " +:+ target ∈ plan ->
  target ∈ pairs.*1
  /\ exists st, m !! target = Some st
                /\ (exists_ st = false
                    \/ flag = true /\ is_empty_loopback (lines st) = true).
Proof.
  intros Hplan. pose proof (generate_rollback_Ok_covered _ _ _ _ Hplan) as Hc.
  destruct (generate_rollback_blocks m flag pairs Hc) as (blocks & Hb & Hall).
  rewrite Hb in Hplan. injection Hplan as <-. clear Hb Hc.
  induction Hall as [|c block rest blocks (st & Hst & ->) _ IH].
  - by intros ?%elem_of_nil.
  - cbn [concat]. rewrite elem_of_app, fmap_cons, elem_of_cons.
    intros [Hin | Hin].
    + apply rule_block_destroy in Hin as [-> Hwhy].
      split; [by left | by exists st].
    + destruct (IH Hin) as [? ?]. split; [by right | done].
Qed.

Lemma generate_rollback_destroy_witness :
  "Loopback1" ∈ example_batch.*1
  /\ exists st, (list_to_map example_items : gmap string state)
                  !! "Loopback1" = Some st
                /\ (exists_ st = false
                    \/ false = true /\ is_empty_loopback (lines st) = true).
Proof.
  apply (generate_rollback_destroy (list_to_map example_items) false
           example_batch
           ["interface Loopback3"; "no description";
            "no interface Loopback1";
            "interface Loopback2"; "description old"]
           "Loopback1").
  - reflexivity.
  - apply (bool_decide_unpack _). by vm_compute.
Defined.

(** ** More on the command-file codec *)

Lemma single_line_no_lf_cr (s : string) :
  single_line s = true <-> no_lf s = true /\ no_cr s = true.
Proof.
  unfold single_line, no_lf, no_cr.
  induction s as [|c s IH]; [done |]. simpl.
  rewrite !andb_true_iff, IH, negb_orb, andb_true_iff. tauto.
Qed.

Lemma universal_newlines_no_cr (s : string) :
  no_cr (universal_newlines s) = true.
Proof.
  assert (no_cr (universal_newlines s) = true
          /\ match s with
             | String _ r => no_cr (universal_newlines r) = true
             | EmptyString => True
             end) as [H _]; [| done].
  induction s as [|c r [IHr IHt]]; [done |].
  split; [| done]. cbn [universal_newlines].
  destruct (Ascii.eqb c Py.CR) eqn:Hc.
  - destruct r as [|c' r']; [done |].
    destruct (Ascii.eqb c' Py.LF); unfold no_cr in *; simpl; done.
  - unfold no_cr in *. simpl. by rewrite Hc, IHr.
Qed.

Lemma rstrip_lf_no_lf (s : string) : no_lf s = true -> Py.rstrip_lf s = s.
Proof.
  unfold no_lf. induction s as [|c s IH]; [done |]. simpl. intros H.
  apply andb_true_iff in H as [Hc Hs]. apply negb_true_iff in Hc.
  by rewrite (IH Hs), Hc, andb_false_r.
Qed.

Lemma rstrip_lf_line_no_lf (s : string) :
  no_lf s = true -> Py.rstrip_lf (s +:+ nl) = s.
Proof.
  unfold no_lf. induction s as [|c s IH]; [done |].
  unfold_append. simpl. intros H.
  apply andb_true_iff in H as [Hc Hs]. apply negb_true_iff in Hc.
  by rewrite (IH Hs), Hc, andb_false_r.
Qed.

(** A line of a file is a body without line feed, followed by a line feed
    or, for the last line, by nothing; its characters are characters of
    the file. *)
Lemma file_lines_shape (p : ascii -> bool) (s : string) :
  Py.all_chars p s = true ->
  Forall (fun ln => exists body, (ln = body +:+ nl \/ ln = body)
                                 /\ no_lf body = true
                                 /\ Py.all_chars p body = true)
         (file_lines s).
Proof.
  induction s as [|c r IH]; [constructor |]. simpl. intros H.
  apply andb_true_iff in H as [Hc Hr]. specialize (IH Hr).
  destruct (Ascii.eqb c Py.LF) eqn:E.
  - constructor; [| done]. exists "". split; [left |]; [| done].
    apply Ascii.eqb_eq in E. by subst c.
  - destruct (file_lines r) as [|l ls].
    + constructor; [| done]. exists (String c ""). split; [by right |].
      unfold no_lf. simpl. by rewrite E, Hc.
    + apply Forall_cons in IH as [(body & Hl & Hlf & Hp) Hls].
      constructor; [| done]. exists (String c body). split.
      * destruct Hl as [-> | ->]; [by left | by right].
      * unfold no_lf in *. simpl. by rewrite E, Hc, Hlf, Hp.
Qed.

Lemma decode_text_kept (content : string) :
  Forall kept (decode_text content).
Proof.
  unfold decode_text.
  pose proof (file_lines_shape _ _ (universal_newlines_no_cr content)) as H.
  apply Forall_fmap, Forall_forall. intros ln Hin.
  apply list_elem_of_filter in Hin as [Hne Hin].
  rewrite Forall_forall in H.
  destruct (H ln Hin) as (body & Hln & Hlf & Hcr).
  assert (Py.rstrip_lf ln = body /\ Py.strip ln = Py.strip body) as [Hb Hs].
  { destruct Hln as [-> | ->].
    - split; [by apply rstrip_lf_line_no_lf |].
      unfold Py.strip, nl. by rewrite rstrip_app_space.
    - split; [by apply rstrip_lf_no_lf | done]. }
  simpl. rewrite Hb. split.
  - unfold is_blank. rewrite <- Hs. unfold Py.truthy in Hne.
    by destruct (Py.is_empty (Py.strip ln)).
  - by apply single_line_no_lf_cr.
Qed.

(** Every command read from a file, whatever the file holds, has a
    character that is not whitespace and no line feed or carriage return;
    so what is read can be saved and read back unchanged. *)
Theorem read_commands_stable (path path' : string)
    (fs fs' : gmap string string) (cmds : list string) :
  _read_commands_from_file path fs = Ok cmds ->
  Forall (fun c => is_blank c = false /\ single_line c = true) cmds
  /\ save_then_read cmds path' fs' = Ok cmds.
Proof.
  unfold _read_commands_from_file.
  destruct (fs !! path) as [content|]; [| done].
  fold (decode_text content). intros [= <-].
  pose proof (decode_text_kept content) as Hkept.
  split; [exact Hkept |].
  rewrite save_then_read_decode. f_equal. by apply decode_join.
Qed.

Lemma read_commands_stable_witness :
  Forall (fun c => is_blank c = false /\ single_line c = true)
         ["no interface Loopback1"; "commit"]
  /\ save_then_read ["no interface Loopback1"; "commit"] "copy.cmds" ∅
     = Ok ["no interface Loopback1"; "commit"].
Proof.
  apply (read_commands_stable "rollback.cmds" "copy.cmds"
           {[ "rollback.cmds" :=
                String Py.LF "  " +:+ nl +:+ "no interface Loopback1"
                +:+ String Py.CR nl +:+ nl +:+ "commit" ]}
           ∅).
  reflexivity.
Defined.

Lemma universal_newlines_crlf (cmds : list string) :
  Forall (fun c => single_line c = true) cmds ->
  universal_newlines (text_crlf cmds) = text_of cmds.
Proof.
  induction 1 as [|c cmds Hc _ IH]; [done |].
  cbn [text_crlf text_of fold_right]. fold (text_crlf cmds) (text_of cmds).
  rewrite <- IH. clear IH.
  induction c as [|x c IHc]; [done |].
  apply single_line_split in Hc as (_ & Hx & Hc).
  unfold_append. cbn [universal_newlines]. by rewrite Hx, IHc.
Qed.

(** A file with the line ending CR LF reads as the same commands. *)
Theorem read_commands_crlf (path : string) (fs : gmap string string)
    (cmds : list string) :
  Forall (fun c => is_blank c = false /\ single_line c = true) cmds ->
  fs !! path = Some (text_crlf cmds) ->
  _read_commands_from_file path fs = Ok cmds.
Proof.
  intros Hkept Hfile. unfold _read_commands_from_file. rewrite Hfile.
  f_equal. rewrite universal_newlines_crlf.
  - rewrite <- (universal_newlines_id (text_of cmds)).
    + by apply (decode_text_of cmds).
    + apply single_line_text_of.
      eapply Forall_impl; [exact Hkept |]. by intros ? [_ ?].
  - eapply Forall_impl; [exact Hkept |]. by intros ? [_ ?].
Qed.

Lemma read_commands_crlf_witness :
  _read_commands_from_file "rollback.cmds"
    {[ "rollback.cmds" := text_crlf ["interface Loopback3"; "no description"] ]}
  = Ok ["interface Loopback3"; "no description"].
Proof.
  apply (read_commands_crlf "rollback.cmds"
           {[ "rollback.cmds" :=
                text_crlf ["interface Loopback3"; "no description"] ]}
           ["interface Loopback3"; "no description"]).
  - repeat constructor.
  - reflexivity.
Defined.

(** ** From the probes to the rollback file *)

Lemma is_blank_head (c : ascii) (r : string) :
  Py.isspace c = false -> is_blank (String c r) = false.
Proof.
  intros Hc. unfold is_blank, Py.strip. cbn [Py.rstrip]. cbv zeta.
  rewrite Hc, andb_false_r. cbn [Py.lstrip]. by rewrite Hc.
Qed.

Lemma single_line_app (a b : string) :
  single_line (a +:+ b) = single_line a && single_line b.
Proof. apply all_chars_app. Qed.

Lemma key_single_line (raw key : string) :
  normalize_loopback raw = Ok key -> single_line key = true.
Proof.
  intros H. apply normalize_loopback_Ok in H as [Hv ->].
  rewrite single_line_app. apply andb_true_iff. split; [done |].
  destruct (canonical_digits_shape _ (digits_of_decimal _ Hv)) as [Hd _].
  apply andb_true_iff in Hd as [_ Hd]. revert Hd. apply all_chars_impl.
  intros c. destruct c as [[] [] [] [] [] [] [] []]; vm_compute; intros H;
    first [discriminate H | reflexivity].
Qed.

Lemma rule_block_kept (conn : string -> string) (lb : string)
    (flag : bool) :
  single_line lb = true ->
  Forall kept (rule_block (get_interface_state conn lb) lb flag).
Proof.
  intros Hlb. unfold rule_block.
  assert (kept ("no interface " +:+ lb)) as Hno.
  { split; [by apply is_blank_head |]. by rewrite single_line_app, Hlb. }
  destruct (negb _); [by constructor |].
  destruct (flag && _); [by constructor |].
  constructor; [| constructor; [| constructor]].
  - split; [by apply is_blank_head |]. by rewrite single_line_app, Hlb.
  - destruct (description _) as [[|c r]|] eqn:Hd; [done | | done].
    split; [by apply is_blank_head |].
    rewrite single_line_app.
    by rewrite (get_interface_state_description_single_line _ _ _ Hd).
Qed.

(** The plan synthesized from the probes of normalized targets is read
    back from the rollback file exactly as it was generated. *)
Theorem rollback_file_roundtrip (conn : string -> string) (flag : bool)
    (pairs : list (string * string)) (plan : list string) (path : string)
    (fs : gmap string string) :
  Forall (fun c => exists raw, normalize_loopback raw = Ok c.1) pairs ->
  generate_rollback_for_pairs (probe_targets conn pairs) pairs flag
  = Ok plan ->
  save_then_read plan path fs = Ok plan.
Proof.
  intros Hkeys.
  rewrite (generate_rollback_from _ flag (get_interface_state conn) pairs
             (probe_targets_snapshots conn pairs)).
  intros [= <-].
  rewrite save_then_read_decode. f_equal. apply decode_join.
  apply Forall_concat, Forall_fmap. eapply Forall_impl; [exact Hkeys |].
  intros c [raw Hraw]. simpl. apply rule_block_kept.
  by apply (key_single_line raw).
Qed.

Lemma rollback_file_roundtrip_witness :
  save_then_read ["interface Loopback1"; "description B"] "rollback.cmds" ∅
  = Ok ["interface Loopback1"; "description B"].
Proof.
  apply (rollback_file_roundtrip two_descriptions false
           [("Loopback1", "new")]).
  - constructor; [| constructor]. exists "1". reflexivity.
  - reflexivity.
Defined.

(** ** More on the emptiness classifier *)

(** A stanza in two parts is trivial exactly when both parts are, so the
    order of the sub-lines does not count. *)
Theorem is_empty_loopback_app (before after : list string) :
  is_empty_loopback (before ++ after)
  = is_empty_loopback before && is_empty_loopback after
  /\ is_empty_loopback (after ++ before) = is_empty_loopback (before ++ after).
Proof.
  assert (forall a b, is_empty_loopback (a ++ b)
                      = is_empty_loopback a && is_empty_loopback b) as H.
  { intros a b. induction a as [|ln a IH]; [done |].
    rewrite <- app_comm_cons. cbn [is_empty_loopback].
    by destruct (negb (Py.truthy ln) || Py.startswith ln "description "). }
  split; [apply H |]. rewrite !H. apply andb_comm.
Qed.

(** ** The credentials *)

Lemma missing_credentials_nil (host user pwd : option string) :
  missing_credentials host user pwd = [] <->
  opt_truthy host = true /\ opt_truthy user = true /\ opt_truthy pwd = true.
Proof.
  unfold missing_credentials. rewrite !filter_cons, filter_nil. cbn [snd].
  destruct (opt_truthy host), (opt_truthy user), (opt_truthy pwd);
    repeat case_decide; try done;
    split; (done || by intros (? & ? & ?)).
Qed.

(** Without [--apply-rollback], a device is returned only with three
    credentials that are not empty, each one the value of the command line
    when that is not empty and the value of the environment otherwise. *)
Theorem load_device_from_env_credentials
    (getenv : string -> option string) (args : Args.t) (d : Device.t) :
  opt_truthy (Args.apply_rollback args) = false ->
  load_device_from_env getenv args = inr d ->
  opt_truthy (Device.host d) = true
  /\ opt_truthy (Device.username d) = true
  /\ opt_truthy (Device.password d) = true
  /\ Device.host d
     = (if opt_truthy (Args.host args) then Args.host args
        else getenv "XR_HOST")
  /\ Device.username d
     = (if opt_truthy (Args.user args) then Args.user args
        else getenv "XR_USER")
  /\ Device.password d
     = (if opt_truthy (Args.password args) then Args.password args
        else getenv "XR_PASS").
Proof.
  unfold load_device_from_env. cbv zeta. intros ->. rewrite andb_true_r.
  destruct (bool_decide _) eqn:E; [| done].
  apply bool_decide_eq_true, missing_credentials_nil in E as (? & ? & ?).
  by intros [= <-].
Qed.

Lemma load_device_from_env_credentials_witness :
  opt_truthy (Some "10.0.0.1") = true
  /\ opt_truthy (Some "admin") = true
  /\ opt_truthy (Some "secret") = true
  /\ Some "10.0.0.1" = (if opt_truthy (Some "10.0.0.1") then Some "10.0.0.1"
                        else Some "192.0.2.1")
  /\ Some "admin" = (if opt_truthy (Some "") then Some ""
                     else Some "admin")
  /\ Some "secret" = (if opt_truthy None then None else Some "secret").
Proof.
  apply (load_device_from_env_credentials
           (fun k => if String.eqb k "XR_HOST" then Some "192.0.2.1"
                     else if String.eqb k "XR_USER" then Some "admin"
                     else Some "secret")
           (Args.Make (Some "100") (Some "Mgmt") None false 0 None None
              true false (Some "10.0.0.1") (Some "") None)
           (Device.Make "cisco_xr" (Some "10.0.0.1") (Some "admin")
              (Some "secret") true));
    reflexivity.
Defined.

(** The run stops for missing credentials exactly when one of the three is
    neither on the command line nor in the environment and
    [--apply-rollback] is not given; the message names the missing ones.
    With [--apply-rollback] a device is always returned. *)
Theorem load_device_from_env_exit (getenv : string -> option string)
    (args : Args.t) :
  let host := py_or (Args.host args) (getenv "XR_HOST") in
  let user := py_or (Args.user args) (getenv "XR_USER") in
  let pwd := py_or (Args.password args) (getenv "XR_PASS") in
  ((exists f, load_device_from_env getenv args = inl f) <->
   opt_truthy (Args.apply_rollback args) = false
   /\ (opt_truthy host = false \/ opt_truthy user = false
       \/ opt_truthy pwd = false))
  /\ (forall f, load_device_from_env getenv args = inl f ->
        f = SystemExit
              ("Missing credentials/env: "
               +:+ Py.join ", " (missing_credentials host user pwd)
               +:+ ". Use env or --host/--user/--password.")).
Proof.
  intros host user pwd. unfold load_device_from_env. cbv zeta.
  fold host user pwd.
  pose proof (missing_credentials_nil host user pwd) as Hnil.
  destruct (bool_decide _) eqn:E; cbn [negb andb].
  - apply bool_decide_eq_true, Hnil in E as (-> & -> & ->).
    split; [| done]. split; [by intros [? ?] |].
    by intros (_ & [? | [? | ?]]).
  - apply bool_decide_eq_false in E.
    destruct (opt_truthy (Args.apply_rollback args)); cbn [negb].
    + split; [| done]. split; [by intros [? ?] | by intros [? _]].
    + split; [| by intros f [= <-]]. split; [| by eexists].
      intros _. split; [done |].
      destruct (opt_truthy host) eqn:?; [| by left].
      destruct (opt_truthy user) eqn:?; [| by right; left].
      destruct (opt_truthy pwd) eqn:?; [| by right; right].
      exfalso. apply E, Hnil. done.
Qed.

Example load_device_from_env_message :
  load_device_from_env (fun _ => None)
    (Args.Make (Some "100") (Some "Mgmt") None false 0 None None
       true false (Some "10.0.0.1") None None)
  = inl (SystemExit
           "Missing credentials/env: XR_USER, XR_PASS. Use env or --host/--user/--password.").
Proof. reflexivity. Qed.

(** ** Runs of the program *)

Section RunProperties.

Context {dev : Type}.
Variable connect : Device.t -> dev -> bool.
Variable send_command : dev -> string -> option (string * dev).
Variable send_config_set : dev -> list string -> option (string * dev).
Variable getenv : string -> option string.
Variable now : string.
Variable dict_reader : string -> list csv_row.

Local Abbreviation M := (M dev).
Local Abbreviation run_main :=
  (main connect send_command send_config_set getenv now dict_reader).

(** *** Steps whose events all satisfy a predicate *)

Section EmitsAll.

Variable p : event -> bool.

Lemma emits_all_ret {A : Type} (a : A) : emits_all p (ret a : M A).
Proof. intros w. exists []. by rewrite app_nil_r. Qed.

Lemma emits_all_stop {A : Type} (f : failure) : emits_all p (stop f : M A).
Proof. intros w. exists []. by rewrite app_nil_r. Qed.

Lemma emits_all_lift {A : Type} (r : result A) : emits_all p (lift r : M A).
Proof. destruct r; [apply emits_all_ret | apply emits_all_stop]. Qed.

Lemma emits_all_lift_exit {A : Type} (r : failure + A) :
  emits_all p (lift_exit r : M A).
Proof. destruct r; [apply emits_all_stop | apply emits_all_ret]. Qed.

Lemma emits_all_bind {A B : Type} (m : M A) (k : A -> M B) :
  emits_all p m -> (forall a, emits_all p (k a)) -> emits_all p (bind m k).
Proof.
  intros Hm Hk w. unfold bind. destruct (Hm w) as (n1 & E1 & H1).
  destruct (m w) as [[f | a] w1]; cbn [snd] in *; [by exists n1 |].
  destruct (Hk a w1) as (n2 & E2 & H2). exists (n1 ++ n2).
  rewrite E2, E1, (assoc_L (++)). split; [done | by apply Forall_app].
Qed.

Lemma emits_all_send_command (q : string) :
  p (SendCommand q) = true ->
  emits_all p (conn_send_command send_command q).
Proof.
  intros Hq w. exists [SendCommand q]. unfold conn_send_command. cbv zeta.
  split; [| by repeat constructor].
  by destruct (send_command (device_state w) q) as [[? ?]|].
Qed.

Lemma emits_all_send_config_set (cmds : list string) :
  p (SendConfigSet cmds) = true ->
  emits_all p (conn_send_config_set send_config_set cmds).
Proof.
  intros Hq w. exists [SendConfigSet cmds]. unfold conn_send_config_set.
  cbv zeta. split; [| by repeat constructor].
  by destruct (send_config_set (device_state w) cmds) as [[? ?]|].
Qed.

Lemma emits_all_with_session {A : Type} (d : Device.t) (body : M A) :
  p (Connect d) = true -> p Disconnect = true ->
  emits_all p body -> emits_all p (with_session connect d body).
Proof.
  intros Hc Hd Hbody w. unfold with_session. cbv zeta.
  destruct (connect d (device_state w)).
  - set (w1 := World _ _ _). destruct (Hbody w1) as (n & E & Hn).
    destruct (body w1) as [r w2]. cbn [snd trace] in *.
    exists ([Connect d] ++ n ++ [Disconnect]).
    rewrite E. subst w1. cbn [trace]. rewrite <- !(assoc_L (++)).
    split; [done |]. by repeat (apply Forall_app; split); repeat constructor.
  - exists [Connect d]. by repeat constructor.
Qed.

Lemma emits_all_write_file (path text : string) :
  p (WriteFile path text) = true -> emits_all p (write_file path text : M unit).
Proof. intros H w. exists [WriteFile path text]. by repeat constructor. Qed.

Lemma emits_all_read_file (path : string) :
  emits_all p (read_file path : M string).
Proof.
  intros w. exists []. rewrite app_nil_r. unfold read_file.
  by destruct (files w !! path).
Qed.

Lemma emits_all_read_commands (path : string) :
  emits_all p (read_commands path : M (list string)).
Proof.
  intros w. exists []. rewrite app_nil_r. unfold read_commands.
  by destruct (_read_commands_from_file path (files w)).
Qed.

Lemma emits_all_save_commands (cmds : list string) (path : string) :
  (forall text, p (WriteFile path text) = true) ->
  emits_all p (save_commands cmds path : M unit).
Proof.
  intros H w. exists [WriteFile path (Py.join nl cmds +:+ nl)].
  by repeat constructor.
Qed.

Lemma emits_all_backup_running (running : string) (host : option string) :
  (forall path text, p (WriteFile path text) = true) ->
  emits_all p (backup_running now running host : M string).
Proof.
  intros H. unfold backup_running. cbv zeta. apply emits_all_bind.
  - by apply emits_all_write_file.
  - intros _. apply emits_all_ret.
Qed.

Lemma emits_all_probe_all (before_states : gmap string state)
    (pairs : list (string * string)) :
  (forall lb,
     p (SendCommand ("show running-config interface " +:+ lb)) = true) ->
  emits_all p (probe_all send_command before_states pairs).
Proof.
  intros H. revert before_states.
  induction pairs as [|[lb d] rest IH]; intros before_states.
  - apply emits_all_ret.
  - cbn [probe_all]. apply emits_all_bind; [| intros st; apply IH].
    unfold probe. apply emits_all_bind; [by apply emits_all_send_command |].
    intros text. apply emits_all_ret.
Qed.

Lemma emits_all_build_targets (args : Args.t) :
  emits_all p (build_targets dict_reader args : M _).
Proof.
  unfold build_targets, parse_csv_file.
  destruct (opt_truthy (Args.csv args)).
  - apply emits_all_bind; [apply emits_all_read_file |].
    intros text. apply emits_all_lift.
  - destruct (_ || _); [apply emits_all_stop |].
    apply emits_all_bind; [apply emits_all_lift |].
    intros lb. apply emits_all_ret.
Qed.

Lemma emits_all_apply_and_commit (cmds : list string) (cc : Z) :
  p (SendConfigSet cmds) = true ->
  p (SendCommand "commit") = true ->
  (forall n, p (SendCommand ("commit confirmed " +:+ n)) = true) ->
  emits_all p (apply_and_commit send_command send_config_set cmds cc).
Proof.
  intros Hset Hcommit Hconfirmed. unfold apply_and_commit.
  apply emits_all_bind; [by apply emits_all_send_config_set |].
  intros _. destruct (0 <? cc)%Z.
  - apply emits_all_bind; [by apply emits_all_send_command |]. intros _.
    apply emits_all_bind; [by apply emits_all_send_command |]. intros _.
    apply emits_all_ret.
  - apply emits_all_bind; [by apply emits_all_send_command |]. intros _.
    apply emits_all_ret.
Qed.

End EmitsAll.

(** *** Steps in two phases *)

Section EmitsThen.

Variables p q : event -> bool.

Lemma emits_then_first {A : Type} (m : M A) :
  emits_all p m -> emits_then p q m.
Proof.
  intros H w. destruct (H w) as (n & E & Hn). exists n, [].
  by rewrite app_nil_r.
Qed.

Lemma emits_then_second {A : Type} (m : M A) :
  emits_all q m -> emits_then p q m.
Proof. intros H w. destruct (H w) as (n & E & Hn). by exists [], n. Qed.

Lemma emits_then_bind_first {A B : Type} (m : M A) (k : A -> M B) :
  emits_all p m -> (forall a, emits_then p q (k a)) ->
  emits_then p q (bind m k).
Proof.
  intros Hm Hk w. unfold bind. destruct (Hm w) as (n1 & E1 & H1).
  destruct (m w) as [[f | a] w1]; cbn [snd] in *.
  - exists n1, []. by rewrite app_nil_r.
  - destruct (Hk a w1) as (n2 & n3 & E2 & H2 & H3). exists (n1 ++ n2), n3.
    rewrite E2, E1, <- !(assoc_L (++)).
    split; [done |]. split; [by apply Forall_app | done].
Qed.

Lemma emits_then_bind_second {A B : Type} (m : M A) (k : A -> M B) :
  emits_then p q m -> (forall a, emits_all q (k a)) ->
  emits_then p q (bind m k).
Proof.
  intros Hm Hk w. unfold bind. destruct (Hm w) as (n1 & n2 & E1 & H1 & H2).
  destruct (m w) as [[f | a] w1]; cbn [snd] in *; [by exists n1, n2 |].
  destruct (Hk a w1) as (n3 & E3 & H3). exists n1, (n2 ++ n3).
  rewrite E3, E1, <- !(assoc_L (++)).
  split; [done |]. split; [done | by apply Forall_app].
Qed.

Lemma emits_then_with_session {A : Type} (d : Device.t) (body : M A) :
  p (Connect d) = true -> q Disconnect = true ->
  emits_then p q body -> emits_then p q (with_session connect d body).
Proof.
  intros Hc Hd Hbody w. unfold with_session. cbv zeta.
  destruct (connect d (device_state w)).
  - set (w1 := World _ _ _). destruct (Hbody w1) as (n1 & n2 & E & H1 & H2).
    destruct (body w1) as [r w2]. cbn [snd trace] in *.
    exists ([Connect d] ++ n1), (n2 ++ [Disconnect]).
    rewrite E. subst w1. cbn [trace]. rewrite <- !(assoc_L (++)).
    split; [done |].
    split; apply Forall_app; split; try done; by repeat constructor.
  - exists [Connect d], []. by repeat constructor.
Qed.

End EmitsThen.

(** *** Steps that leave the world as it is *)

Lemma leaves_world_bind {A B : Type} (m : M A) (k : A -> M B) :
  leaves_world m -> (forall a, leaves_world (k a)) -> leaves_world (bind m k).
Proof.
  intros Hm Hk w. unfold bind. specialize (Hm w).
  destruct (m w) as [[f | a] w1]; cbn [snd] in *; [done |].
  subst w1. apply Hk.
Qed.

Lemma leaves_world_lift {A : Type} (r : result A) :
  leaves_world (lift r : M A).
Proof. by destruct r. Qed.

Lemma leaves_world_lift_exit {A : Type} (r : failure + A) :
  leaves_world (lift_exit r : M A).
Proof. by destruct r. Qed.

Lemma leaves_world_read_commands (path : string) :
  leaves_world (read_commands path : M (list string)).
Proof.
  intros w. unfold read_commands.
  by destruct (_read_commands_from_file path (files w)).
Qed.

Lemma leaves_world_build_targets (args : Args.t) :
  leaves_world (build_targets dict_reader args : M _).
Proof.
  unfold build_targets, parse_csv_file.
  destruct (opt_truthy (Args.csv args)).
  - apply leaves_world_bind; [| intros text; apply leaves_world_lift].
    intros w. unfold read_file. by destruct (files w !! _).
  - destruct (_ || _); [done |].
    apply leaves_world_bind; [apply leaves_world_lift | done].
Qed.

(** *** Dry runs *)

Lemma harmless_probe (lb : string) :
  harmless (SendCommand ("show running-config interface " +:+ lb)) = true.
Proof. reflexivity. Qed.

(** With [--dry-run] nothing that could change the configuration is ever
    sent: whatever the arguments, the files and the device, the run only
    opens and closes the session, asks [show running-config] queries and
    writes files. *)
Theorem main_dry_run_harmless (args : Args.t) (w : world dev) :
  Args.dry_run args = true ->
  exists new,
    trace (run_main args w).2 = trace w ++ new
    /\ Forall (fun e => harmless e = true) new.
Proof.
  intros Hdry. revert w. change (emits_all harmless (run_main args)).
  unfold main, main_apply_rollback, main_apply_changes.
  cbv zeta. rewrite !Hdry.
  destruct (opt_truthy (Args.apply_rollback args)).
  - apply emits_all_bind; [apply emits_all_lift_exit |]. intros device.
    apply emits_all_bind; [apply emits_all_read_commands |]. intros cmds.
    apply emits_all_ret.
  - apply emits_all_bind; [apply emits_all_build_targets |]. intros pairs.
    destruct (opt_truthy (Args.generate_rollback args)); cbn [negb andb];
      [| apply emits_all_ret].
    apply emits_all_bind; [apply emits_all_lift_exit |]. intros device.
    apply emits_all_with_session; [done | done |].
    apply emits_all_bind; [by apply emits_all_send_command |]. intros before.
    apply emits_all_bind; [by apply emits_all_backup_running |]. intros _.
    apply emits_all_bind;
      [apply emits_all_probe_all, harmless_probe |]. intros before_states.
    apply emits_all_bind; [apply emits_all_lift |]. intros rb_cmds.
    apply emits_all_bind; [by apply emits_all_save_commands |]. intros _.
    apply emits_all_ret.
Qed.

(** A dry run that generates no rollback file, and a dry run of
    [--apply-rollback], touch nothing: no session is opened and no file is
    written. *)
Theorem main_dry_run_untouched (args : Args.t) (w : world dev) :
  Args.dry_run args = true ->
  opt_truthy (Args.apply_rollback args) = true
  \/ opt_truthy (Args.generate_rollback args) = false ->
  (run_main args w).2 = w.
Proof.
  intros Hdry Hmode. revert w. change (leaves_world (run_main args)).
  unfold main, main_apply_rollback, main_apply_changes.
  cbv zeta. rewrite !Hdry.
  destruct (opt_truthy (Args.apply_rollback args)).
  - apply leaves_world_bind; [apply leaves_world_lift_exit |]. intros device.
    apply leaves_world_bind; [apply leaves_world_read_commands | done].
  - destruct Hmode as [? | ->]; [done |]. cbn [negb andb].
    apply leaves_world_bind; [apply leaves_world_build_targets | done].
Qed.

(** *** Errors in the targets *)

(** When the targets cannot be built (no loopback or description, an
    invalid identifier, a CSV file that is missing, empty or has a bad
    row), the run ends with that failure before anything is done: no
    session is opened and no file is written. *)
Theorem main_bad_targets (args : Args.t) (w w' : world dev) (f : failure) :
  opt_truthy (Args.apply_rollback args) = false ->
  build_targets dict_reader args w = (inl f, w') ->
  run_main args w = (inl f, w).
Proof.
  intros Hmode Hbuild. unfold main, main_apply_changes. rewrite Hmode.
  cbv zeta. unfold bind at 1.
  pose proof (leaves_world_build_targets args w) as Hw.
  rewrite Hbuild in *. cbn [snd] in Hw. by subst w'.
Qed.

(** *** The order of a run *)

Lemma changing_apply_and_commit (cmds : list string) (cc : Z) :
  emits_all changing (apply_and_commit send_command send_config_set cmds cc).
Proof.
  apply emits_all_apply_and_commit; [done | done |].
  intros n. unfold changing. rewrite startswith_app.
  by rewrite orb_true_r.
Qed.

(** Every run is in two phases. In the first nothing can change the
    configuration: the session is opened, the running configuration is
    read and backed up, the targets are probed and the rollback file is
    written. The second holds the configuration commands, the commits, the
    last [show running-config] and the end of the session: once a command
    that changes the device is sent, no probe is made and no file is
    written any more. *)
Theorem main_two_phases (args : Args.t) (w : world dev) :
  exists first second,
    trace (run_main args w).2 = trace w ++ first ++ second
    /\ Forall (fun e => harmless e = true) first
    /\ Forall (fun e => changing e = true) second.
Proof.
  revert w. change (emits_then harmless changing (run_main args)).
  unfold main, main_apply_rollback, main_apply_changes. cbv zeta.
  destruct (opt_truthy (Args.apply_rollback args)).
  - apply emits_then_bind_first; [apply emits_all_lift_exit |]. intros device.
    apply emits_then_bind_first; [apply emits_all_read_commands |].
    intros cmds. destruct (Args.dry_run args).
    { apply emits_then_first, emits_all_ret. }
    apply emits_then_with_session; [done | done |].
    apply emits_then_bind_first; [by apply emits_all_send_command |].
    intros before.
    apply emits_then_bind_first; [by apply emits_all_backup_running |].
    intros _. apply emits_then_second.
    apply emits_all_bind; [apply changing_apply_and_commit |]. intros _.
    apply emits_all_bind; [by apply emits_all_send_command |]. intros _.
    apply emits_all_ret.
  - apply emits_then_bind_first; [apply emits_all_build_targets |].
    intros pairs. destruct (_ && _).
    { apply emits_then_first, emits_all_ret. }
    apply emits_then_bind_first; [apply emits_all_lift_exit |]. intros device.
    apply emits_then_with_session; [done | done |].
    apply emits_then_bind_first; [by apply emits_all_send_command |].
    intros before.
    apply emits_then_bind_first; [by apply emits_all_backup_running |].
    intros _.
    assert (emits_all changing
              (bind (apply_and_commit send_command send_config_set
                       (build_commands_bulk pairs)
                       (Args.commit_confirmed args))
                 (fun _ => bind (read_running send_command)
                             (fun _ => ret tt)))) as Happly.
    { apply emits_all_bind; [apply changing_apply_and_commit |]. intros _.
      apply emits_all_bind; [by apply emits_all_send_command |]. intros _.
      apply emits_all_ret. }
    destruct (opt_truthy (Args.generate_rollback args));
      [| by apply emits_then_second].
    apply emits_then_bind_first;
      [apply emits_all_probe_all, harmless_probe |]. intros before_states.
    apply emits_then_bind_first; [apply emits_all_lift |]. intros rb_cmds.
    apply emits_then_bind_first; [by apply emits_all_save_commands |].
    intros _. destruct (Args.dry_run args);
      [apply emits_then_first, emits_all_ret | by apply emits_then_second].
Qed.

(** *** What is sent *)

Lemma sends_only_session (cmds : list string) (cc : Z) (d : Device.t) :
  emits_all (sends_only cmds)
    (with_session connect d
       (bind (read_running send_command) (fun before =>
        bind (backup_running now before (Device.host d)) (fun _ =>
        bind (apply_and_commit send_command send_config_set cmds cc)
             (fun _ => bind (read_running send_command)
                         (fun _ => ret tt)))))).
Proof.
  apply emits_all_with_session; [done | done |].
  apply emits_all_bind; [by apply emits_all_send_command |]. intros before.
  apply emits_all_bind; [by apply emits_all_backup_running |]. intros _.
  apply emits_all_bind.
  { apply emits_all_apply_and_commit; [| done | done].
    cbn. by apply bool_decide_eq_true. }
  intros _. apply emits_all_bind; [by apply emits_all_send_command |].
  intros _. apply emits_all_ret.
Qed.

(** With [--apply-rollback], the only configuration commands a run sends
    are the commands read from the rollback file. *)
Theorem main_apply_rollback_sends (args : Args.t) (w : world dev)
    (cmds : list string) :
  opt_truthy (Args.apply_rollback args) = true ->
  _read_commands_from_file (format_opt (Args.apply_rollback args)) (files w)
  = Ok cmds ->
  exists new,
    trace (run_main args w).2 = trace w ++ new
    /\ Forall (fun e => sends_only cmds e = true) new.
Proof.
  intros Hmode Hread. unfold main, main_apply_rollback. rewrite Hmode.
  unfold bind at 1.
  destruct (load_device_from_env getenv args) as [f | d]; cbn [lift_exit].
  { exists []. by rewrite app_nil_r. }
  unfold ret at 1, bind at 1, read_commands. rewrite Hread.
  destruct (Args.dry_run args).
  { exists []. by rewrite app_nil_r. }
  apply sends_only_session.
Qed.

(** Without [--apply-rollback], the only configuration commands a run
    sends are the planned commands of its targets. *)
Theorem main_changes_sends (args : Args.t) (w w' : world dev)
    (pairs : list (string * string)) :
  opt_truthy (Args.apply_rollback args) = false ->
  build_targets dict_reader args w = (inr pairs, w') ->
  exists new,
    trace (run_main args w).2 = trace w ++ new
    /\ Forall (fun e => sends_only (build_commands_bulk pairs) e = true) new.
Proof.
  intros Hmode Hbuild. unfold main, main_apply_changes. rewrite Hmode.
  cbv zeta. unfold bind at 1.
  pose proof (leaves_world_build_targets args w) as Hw.
  rewrite Hbuild in *. cbn [snd] in Hw. subst w'.
  destruct (_ && _).
  { exists []. by rewrite app_nil_r. }
  clear Hbuild.
  match goal with
  | |- exists new, trace (?m w).2 = _ /\ _ =>
      cut (emits_all (sends_only (build_commands_bulk pairs)) m);
      [intros H; apply H |]
  end.
  apply emits_all_bind; [apply emits_all_lift_exit |]. intros d.
  apply emits_all_with_session; [done | done |].
  apply emits_all_bind; [by apply emits_all_send_command |]. intros before.
  apply emits_all_bind; [by apply emits_all_backup_running |]. intros _.
  assert (emits_all (sends_only (build_commands_bulk pairs))
            (bind (apply_and_commit send_command send_config_set
                     (build_commands_bulk pairs)
                     (Args.commit_confirmed args))
               (fun _ => bind (read_running send_command)
                           (fun _ => ret tt)))) as Happly.
  { apply emits_all_bind.
    { apply emits_all_apply_and_commit; [| done | done].
      cbn. by apply bool_decide_eq_true. }
    intros _. apply emits_all_bind; [by apply emits_all_send_command |].
    intros _. apply emits_all_ret. }
  destruct (opt_truthy (Args.generate_rollback args)); [| done].
  apply emits_all_bind; [by apply emits_all_probe_all |]. intros before_states.
  apply emits_all_bind; [apply emits_all_lift |]. intros rb_cmds.
  apply emits_all_bind; [by apply emits_all_save_commands |]. intros _.
  destruct (Args.dry_run args); [apply emits_all_ret | done].
Qed.

(** *** What a run that returns has done *)

Section Reaches.

Variable p : event -> bool.

Local Abbreviation grows := (emits_all (fun _ => true)).

Lemma reaches_bind_l {A B : Type} (m : M A) (k : A -> M B) :
  reaches p m -> (forall a, grows (k a)) -> reaches p (bind m k).
Proof.
  intros Hm Hk w b w'. unfold bind.
  destruct (m w) as [[f | a] w1] eqn:E; [done |]. intros Hka.
  destruct (Hm w a w1 E) as (n1 & E1 & H1).
  destruct (Hk a w1) as (n2 & E2 & _). rewrite Hka in E2. cbn [snd] in E2.
  exists (n1 ++ n2). rewrite E2, E1, (assoc_L (++)).
  split; [done |]. apply Exists_app. by left.
Qed.

Lemma reaches_bind_r {A B : Type} (m : M A) (k : A -> M B) :
  grows m -> (forall a, reaches p (k a)) -> reaches p (bind m k).
Proof.
  intros Hm Hk w b w'. unfold bind.
  destruct (Hm w) as (n1 & E1 & _).
  destruct (m w) as [[f | a] w1]; [done |]. cbn [snd] in E1. intros Hka.
  destruct (Hk a w1 b w' Hka) as (n2 & E2 & H2).
  exists (n1 ++ n2). rewrite E2, E1, (assoc_L (++)).
  split; [done |]. apply Exists_app. by right.
Qed.

Lemma reaches_send_command (q : string) :
  p (SendCommand q) = true -> reaches p (conn_send_command send_command q).
Proof.
  intros Hq w a w'. unfold conn_send_command. cbv zeta.
  destruct (send_command (device_state w) q) as [[answer d]|]; [| done].
  intros [= <- <-]. exists [SendCommand q]. split; [done |].
  by apply Exists_cons_hd.
Qed.

Lemma reaches_send_config_set (cmds : list string) :
  p (SendConfigSet cmds) = true ->
  reaches p (conn_send_config_set send_config_set cmds).
Proof.
  intros Hq w a w'. unfold conn_send_config_set. cbv zeta.
  destruct (send_config_set (device_state w) cmds) as [[answer d]|]; [| done].
  intros [= <- <-]. exists [SendConfigSet cmds]. split; [done |].
  by apply Exists_cons_hd.
Qed.

Lemma reaches_with_session {A : Type} (d : Device.t) (body : M A) :
  reaches p body -> reaches p (with_session connect d body).
Proof.
  intros Hbody w a w'. unfold with_session. cbv zeta.
  destruct (connect d (device_state w)); [| done].
  set (w1 := World _ _ _). destruct (body w1) as [r w2] eqn:E.
  intros [= -> <-]. destruct (Hbody w1 a w2 E) as (n & En & Hn).
  exists ([Connect d] ++ n ++ [Disconnect]). cbn [trace].
  rewrite En. subst w1. cbn [trace]. rewrite <- !(assoc_L (++)).
  split; [done |]. apply Exists_app. right. apply Exists_app. by left.
Qed.

Hypothesis reaches_apply :
  forall cmds cc,
    reaches p (apply_and_commit send_command send_config_set cmds cc).

Lemma grows_read_running : grows (read_running send_command).
Proof. by apply emits_all_send_command. Qed.

Lemma reaches_apply_then_read (cmds : list string) (cc : Z) :
  reaches p
    (bind (apply_and_commit send_command send_config_set cmds cc)
       (fun _ => bind (read_running send_command) (fun _ => ret tt))).
Proof.
  apply reaches_bind_l; [apply reaches_apply |]. intros _.
  apply emits_all_bind; [apply grows_read_running |]. intros _.
  apply emits_all_ret.
Qed.

Lemma main_reaches (args : Args.t) :
  Args.dry_run args = false -> reaches p (run_main args).
Proof.
  intros Hdry. unfold main, main_apply_rollback, main_apply_changes.
  cbv zeta. rewrite !Hdry. cbn [andb].
  destruct (opt_truthy (Args.apply_rollback args)).
  - apply reaches_bind_r; [apply emits_all_lift_exit |]. intros d.
    apply reaches_bind_r; [apply emits_all_read_commands |]. intros cmds.
    apply reaches_with_session.
    apply reaches_bind_r; [apply grows_read_running |]. intros before.
    apply reaches_bind_r; [by apply emits_all_backup_running |]. intros _.
    apply reaches_apply_then_read.
  - apply reaches_bind_r; [apply emits_all_build_targets |]. intros pairs.
    apply reaches_bind_r; [apply emits_all_lift_exit |]. intros d.
    apply reaches_with_session.
    apply reaches_bind_r; [apply grows_read_running |]. intros before.
    apply reaches_bind_r; [by apply emits_all_backup_running |]. intros _.
    destruct (opt_truthy (Args.generate_rollback args));
      [| apply reaches_apply_then_read].
    apply reaches_bind_r; [by apply emits_all_probe_all |].
    intros before_states.
    apply reaches_bind_r; [apply emits_all_lift |]. intros rb_cmds.
    apply reaches_bind_r; [by apply emits_all_save_commands |]. intros _.
    apply reaches_apply_then_read.
Qed.

End Reaches.

Lemma apply_and_commit_config_set (cmds : list string) (cc : Z) :
  reaches is_config_set
    (apply_and_commit send_command send_config_set cmds cc).
Proof.
  unfold apply_and_commit.
  apply reaches_bind_l; [by apply reaches_send_config_set |]. intros _.
  destruct (0 <? cc)%Z.
  - apply emits_all_bind; [by apply emits_all_send_command |]. intros _.
    apply emits_all_bind; [by apply emits_all_send_command |]. intros _.
    apply emits_all_ret.
  - apply emits_all_bind; [by apply emits_all_send_command |]. intros _.
    apply emits_all_ret.
Qed.

Lemma apply_and_commit_commit (cmds : list string) (cc : Z) :
  reaches is_commit (apply_and_commit send_command send_config_set cmds cc).
Proof.
  unfold apply_and_commit.
  apply reaches_bind_r; [by apply emits_all_send_config_set |]. intros _.
  destruct (0 <? cc)%Z.
  - apply reaches_bind_r; [by apply emits_all_send_command |]. intros _.
    apply reaches_bind_l; [by apply reaches_send_command |]. intros _.
    apply emits_all_ret.
  - apply reaches_bind_l; [by apply reaches_send_command |]. intros _.
    apply emits_all_ret.
Qed.

(** A run without [--dry-run] that returns has sent configuration commands
    and a plain [commit], whatever the value of [--commit-confirmed]. *)
Theorem main_returns_committed (args : Args.t) (w w' : world dev) :
  Args.dry_run args = false ->
  run_main args w = (inr tt, w') ->
  exists new,
    trace w' = trace w ++ new
    /\ Exists (fun e => is_config_set e = true) new
    /\ Exists (fun e => is_commit e = true) new.
Proof.
  intros Hdry Hrun.
  destruct (main_reaches is_config_set apply_and_commit_config_set args
              Hdry w tt w' Hrun) as (n1 & E1 & H1).
  destruct (main_reaches is_commit apply_and_commit_commit args
              Hdry w tt w' Hrun) as (n2 & E2 & H2).
  exists n1. split; [done |]. split; [done |].
  rewrite E1 in E2. apply app_inv_head in E2. by subst n2.
Qed.

(** *** The rollback file a run leaves *)

Lemma bind_inr {A B : Type} (m : M A) (k : A -> M B) (w w' : world dev)
    (b : B) :
  bind m k w = (inr b, w') ->
  exists a w1, m w = (inr a, w1) /\ k a w1 = (inr b, w').
Proof.
  unfold bind. destruct (m w) as [[f | a] w1]; [done |]. by exists a, w1.
Qed.

Lemma keeps_files_bind {A B : Type} (m : M A) (k : A -> M B) :
  keeps_files m -> (forall a, keeps_files (k a)) -> keeps_files (bind m k).
Proof.
  intros Hm Hk w. unfold bind. specialize (Hm w).
  destruct (m w) as [[f | a] w1]; cbn [snd] in *; [done |].
  by rewrite Hk.
Qed.

Lemma keeps_files_send_command (q : string) :
  keeps_files (conn_send_command send_command q).
Proof.
  intros w. unfold conn_send_command. cbv zeta.
  by destruct (send_command (device_state w) q) as [[? ?]|].
Qed.

Lemma keeps_files_send_config_set (cmds : list string) :
  keeps_files (conn_send_config_set send_config_set cmds).
Proof.
  intros w. unfold conn_send_config_set. cbv zeta.
  by destruct (send_config_set (device_state w) cmds) as [[? ?]|].
Qed.

Lemma keeps_files_apply_then_read (cmds : list string) (cc : Z) :
  keeps_files
    (bind (apply_and_commit send_command send_config_set cmds cc)
       (fun _ => bind (read_running send_command)
                   (fun _ => ret tt : M unit))).
Proof.
  apply keeps_files_bind.
  - unfold apply_and_commit.
    apply keeps_files_bind; [apply keeps_files_send_config_set |]. intros _.
    destruct (0 <? cc)%Z;
      repeat (apply keeps_files_bind;
              [apply keeps_files_send_command | intros _]);
      done.
  - intros _. apply keeps_files_bind; [apply keeps_files_send_command |].
    done.
Qed.

(** The targets of a run are keys. *)
Lemma build_targets_keys (args : Args.t) (w w' : world dev)
    (pairs : list (string * string)) :
  build_targets dict_reader args w = (inr pairs, w') ->
  Forall (fun c => exists raw, normalize_loopback raw = Ok c.1) pairs.
Proof.
  unfold build_targets, parse_csv_file.
  destruct (opt_truthy (Args.csv args)).
  - intros H. apply bind_inr in H as (text & w1 & _ & H).
    rewrite parse_csv_pairs_spec in H.
    destruct (dict_reader text) as [|row rest]; [done |].
    destruct (forallb row_ok (row :: rest)) eqn:E; [| done].
    assert (pairs = row_pair <$> row :: rest) as ->
      by (cbv [lift ret] in H; congruence).
    apply forallb_Forall_true in E. rewrite Forall_fmap.
    eapply Forall_impl; [exact E |]. intros r Hr. simpl.
    exists (row_loopback r). rewrite normalize_loopback_spec.
    unfold row_ok in Hr. by apply andb_true_iff in Hr as [-> _].
  - destruct (_ || _); [done |]. intros H.
    apply bind_inr in H as (lb & w1 & Hlb & H). injection H as <- _.
    constructor; [| constructor]. exists (format_opt (Args.loopback args)).
    cbn [fst]. by destruct (normalize_loopback _); [injection Hlb as -> |].
Qed.

(** Each snapshot of the probes is the prober's reading of some answer. *)
Lemma probe_all_snapshots (pairs : list (string * string))
    (m0 m : gmap string state) (w w' : world dev) :
  probe_all send_command m0 pairs w = (inr m, w') ->
  files w' = files w
  /\ forall lb,
       lb ∈ pairs.*1
       \/ (exists text,
             m0 !! lb = Some (get_interface_state (fun _ => text) lb)) ->
       exists text, m !! lb = Some (get_interface_state (fun _ => text) lb).
Proof.
  revert m0 w. induction pairs as [|[k d] rest IH]; intros m0 w.
  - intros [= <- <-]. split; [done |].
    intros lb [Hin | H]; [by apply elem_of_nil in Hin | done].
  - cbn [probe_all]. intros H. apply bind_inr in H as (st & w1 & Hst & H).
    unfold probe in Hst. apply bind_inr in Hst as (text & w2 & Hq & Hst).
    injection Hst as <- <-.
    pose proof (keeps_files_send_command
                  ("show running-config interface " +:+ k) w) as Hf.
    rewrite Hq in Hf. cbn [snd] in Hf.
    destruct (IH _ _ H) as [Hfiles Hm]. split; [by rewrite Hfiles |].
    intros lb Hlb. apply Hm.
    destruct (decide (lb = k)) as [-> | Hne].
    + right. exists text. apply lookup_insert_eq.
    + destruct Hlb as [Hin | [t Ht]].
      * left. rewrite fmap_cons in Hin.
        by apply elem_of_cons in Hin as [? | ?].
      * right. exists t. by rewrite lookup_insert_ne.
Qed.

Lemma plan_kept (m : gmap string state) (flag : bool)
    (pairs : list (string * string)) (plan : list string) :
  Forall (fun c => exists raw, normalize_loopback raw = Ok c.1) pairs ->
  (forall lb, lb ∈ pairs.*1 ->
     exists text, m !! lb = Some (get_interface_state (fun _ => text) lb)) ->
  generate_rollback_for_pairs m pairs flag = Ok plan ->
  Forall kept plan.
Proof.
  intros Hkeys Hm Hplan.
  pose proof (generate_rollback_Ok_covered _ _ _ _ Hplan) as Hc.
  destruct (generate_rollback_blocks m flag pairs Hc) as (blocks & Hb & Hall).
  rewrite Hb in Hplan. injection Hplan as <-. clear Hb Hc.
  apply Forall_concat.
  induction Hall as [|c block rest blocks (st & Hst & ->) _ IH];
    [constructor |].
  apply Forall_cons in Hkeys as [[raw Hraw] Hkeys].
  constructor.
  - destruct (Hm c.1) as [text Ht]; [rewrite fmap_cons; by left |].
    rewrite Hst in Ht. injection Ht as ->.
    apply rule_block_kept. by apply (key_single_line raw).
  - apply IH; [done |]. intros lb Hlb. apply Hm. rewrite fmap_cons.
    by right.
Qed.


End RunProperties.

(** *** The example run *)

Example example_run_change :
  trace (example_run args_change example_world).2
  = [Connect (Device.Make "cisco_xr" (Some "lab") (Some "lab") (Some "lab")
                true);
     SendCommand "show running-config";
     WriteFile "backups/lab-20260101-000000.running-config.txt"
       (two_descriptions "");
     SendCommand "show running-config interface Loopback1";
     WriteFile "rollback.cmds" ("no interface Loopback1" +:+ nl);
     SendConfigSet ["interface Loopback1"; "description new"];
     SendCommand "commit";
     SendCommand "show running-config";
     Disconnect].
Proof. reflexivity. Qed.

Example example_run_rollback :
  trace (example_run args_rollback example_world).2
  = [Connect (Device.Make "cisco_xr" (Some "lab") (Some "lab") (Some "lab")
                true);
     SendCommand "show running-config";
     WriteFile "backups/lab-20260101-000000.running-config.txt"
       (two_descriptions "");
     SendConfigSet ["no interface Loopback1"];
     SendCommand "commit confirmed 60";
     SendCommand "commit";
     SendCommand "show running-config";
     Disconnect].
Proof. reflexivity. Qed.

Lemma main_dry_run_harmless_witness :
  exists new,
    trace (example_run args_dry_run example_world).2
    = trace example_world ++ new
    /\ Forall (fun e => harmless e = true) new.
Proof.
  apply (main_dry_run_harmless example_connect example_send_command
           example_send_config_set example_getenv "20260101-000000"
           (fun _ => []) args_dry_run example_world).
  reflexivity.
Defined.

Lemma main_dry_run_untouched_witness :
  (example_run args_preview example_world).2 = example_world.
Proof.
  apply (main_dry_run_untouched example_connect example_send_command
           example_send_config_set example_getenv "20260101-000000"
           (fun _ => []) args_preview example_world).
  - reflexivity.
  - right. reflexivity.
Defined.

Lemma main_bad_targets_witness :
  example_run args_bad example_world
  = (inl (Exception ValueError), example_world).
Proof.
  apply (main_bad_targets example_connect example_send_command
           example_send_config_set example_getenv "20260101-000000"
           (fun _ => []) args_bad example_world example_world
           (Exception ValueError)).
  - reflexivity.
  - reflexivity.
Defined.

Lemma main_apply_rollback_sends_witness :
  exists new,
    trace (example_run args_rollback example_world).2
    = trace example_world ++ new
    /\ Forall (fun e => sends_only ["no interface Loopback1"] e = true) new.
Proof.
  apply (main_apply_rollback_sends example_connect example_send_command
           example_send_config_set example_getenv "20260101-000000"
           (fun _ => []) args_rollback example_world
           ["no interface Loopback1"]).
  - reflexivity.
  - reflexivity.
Defined.

Lemma main_changes_sends_witness :
  exists new,
    trace (example_run args_change example_world).2
    = trace example_world ++ new
    /\ Forall
         (fun e =>
            sends_only (build_commands_bulk [("Loopback1", "new")]) e = true)
         new.
Proof.
  apply (main_changes_sends example_connect example_send_command
           example_send_config_set example_getenv "20260101-000000"
           (fun _ => []) args_change example_world example_world
           [("Loopback1", "new")]).
  - reflexivity.
  - reflexivity.
Defined.

Lemma main_returns_committed_witness :
  exists new,
    trace (example_run args_change example_world).2
    = trace example_world ++ new
    /\ Exists (fun e => is_config_set e = true) new
    /\ Exists (fun e => is_commit e = true) new.
Proof.
  apply (main_returns_committed example_connect example_send_command
           example_send_config_set example_getenv "20260101-000000"
           (fun _ => []) args_change example_world
           (example_run args_change example_world).2).
  - reflexivity.
  - reflexivity.
Defined.

